(** * HealiFy front end: session store, route guard and assessment workflow

    A shallow embedding of the React client of HealiFy:
    - [AuthContext.jsx]    the session store ([login], [logout],
                           [updateUserProfile], [isProfileComplete]);
    - [ProtectedRoute.jsx] the route guard;
    - [PredictionForm.jsx] the assessment workflow (catalog, initialisation
                           effect, slider handler, validation, submission);
    - [Profile.jsx]        the history colouring [getRiskColor];
    - [Navbar.jsx], [Login.jsx], [Predictions.jsx]
                           the callers of the store: [handleLogout], the
                           login form and its submission, the cards;
    - [Register.jsx]       the password strength check and the form
                           validation;
    - [apiClient.js]       the dummy login.

    React state cells ([useState]) become record fields, a handler becomes a
    function from the cells to the new cells, and what a handler does to the
    outside (toasts, navigation, calls of the API client) is returned as a
    list of effects next to the new cells.  A handler that throws returns
    [Throw]. *)

From Stdlib Require Import ZArith Lia.
From stdpp Require Import base option list strings gmap fin_maps.

Local Open Scope string_scope.
Local Open Scope Z_scope.
Local Open Scope list_scope.

(** ** JavaScript values *)

Module JS.

(** The primitive values that occur in the profile objects. *)
Inductive value : Type :=
| VUndefined
| VNull
| VBool (b : bool)
| VNum (n : Z)
| VStr (s : string).

#[global] Instance value_eq_dec : EqDecision value.
Proof. solve_decision. Defined.

(** ToBoolean. *)
Definition truthy (v : value) : bool :=
  match v with
  | VUndefined | VNull => false
  | VBool b => b
  | VNum n => negb (n =? 0)
  | VStr s => negb (String.eqb s "")
  end.

(** [a && b]: the left operand when it is falsy, the right one otherwise. *)
Definition and (a b : value) : value := if truthy a then b else a.

(** A plain object whose properties hold primitive values. *)
Abbreviation object := (gmap string value).

(** [o.k] (also what destructuring [const { k } = o] binds). *)
Definition get (o : object) (k : string) : value := default VUndefined (o !! k).

(** [{ ...a, ...b }]: the properties of [b] win. *)
Definition spread2 (a b : object) : object := b ∪ a.

(** What a function body ends in. *)
Inductive error : Type :=
| TypeError (msg : string).

Inductive result (A : Type) : Type :=
| Ok (a : A)
| Throw (e : error).
Arguments Ok {A} a.
Arguments Throw {A} e.

End JS.

(** ** AuthContext.jsx *)

Module AuthContext.
Import JS.

(** The user object of the API: [{ id, email, profile }]. The profile is a
    nested object, or absent ([None] stands for [undefined] and [null]). *)
Record account : Type := Account {
  id : value;
  email : value;
  profile : option object;
}.

(** The four state cells of [AuthProvider]. [user] and [token] are [null]
    ([None]) or hold what [login] was given. *)
Record session : Type := Session {
  isAuthenticated : bool;
  user : option account;
  token : option string;
  loading : bool;
}.

(** The initial values of the [useState] calls. *)
Definition initial : session :=
  {| isAuthenticated := false; user := None; token := None; loading := true |}.

(** The mount effect: both branches of [checkExistingSession] end in
    [setLoading(false)] (the recovery from local storage is commented out). *)
Definition checkExistingSession (s : session) : session :=
  {| isAuthenticated := isAuthenticated s; user := user s; token := token s;
     loading := false |}.

(** [login(userData, authToken)], with the parameters at their documented
    types ([Object] and [string]). *)
Definition login (userData : account) (authToken : string) (s : session) : session :=
  {| isAuthenticated := true; user := Some userData; token := Some authToken;
     loading := loading s |}.

Definition logout (s : session) : session :=
  {| isAuthenticated := false; user := None; token := None; loading := loading s |}.

(** The updater handed to [setUser]:
    [prev => ({ ...prev, profile: { ...prev.profile, ...updatedProfile } })].
    Spreading [null] or [undefined] adds nothing, but reading [prev.profile]
    of a [null] [prev] throws. *)
Definition updateUser (updatedProfile : object) (prev : option account)
  : result (option account) :=
  match prev with
  | None => Throw (TypeError "Cannot read properties of null (reading 'profile')")
  | Some u =>
      Ok (Some {| id := id u; email := email u;
                  profile := Some (spread2 (default ∅ (profile u)) updatedProfile) |})
  end.

Definition updateUserProfile (updatedProfile : object) (s : session) : result session :=
  match updateUser updatedProfile (user s) with
  | Throw e => Throw e
  | Ok u' => Ok {| isAuthenticated := isAuthenticated s; user := u';
                   token := token s; loading := loading s |}
  end.

(** [isProfileComplete()]: the value of [age && weight && height], which is
    the first falsy operand or the last operand. *)
Definition isProfileComplete (s : session) : value :=
  match user s with
  | None => VBool false
  | Some u =>
      match profile u with
      | None => VBool false
      | Some p => and (and (get p "age") (get p "weight")) (get p "height")
      end
  end.

(** [updateUserProfile] chained as the store runs it: the second update sees
    the state the first one left, if it left one. *)
Definition then_update (r : result session) (q : object) : result session :=
  match r with
  | Ok s => updateUserProfile q s
  | Throw e => Throw e
  end.

(** One transition of the session store. [updateUserProfile] moves the
    store only when its updater returns. *)
Inductive step : session -> session -> Prop :=
| step_init s : step s (checkExistingSession s)
| step_login s userData authToken : step s (login userData authToken s)
| step_logout s : step s (logout s)
| step_update s updatedProfile s' :
    updateUserProfile updatedProfile s = Ok s' -> step s s'.

Inductive reachable : session -> Prop :=
| reachable_initial : reachable initial
| reachable_step s s' : reachable s -> step s s' -> reachable s'.

(** The invariant carried along the transitions of the store. *)
Definition consistent (s : session) : Prop :=
  isAuthenticated s = true <-> is_Some (token s) /\ is_Some (user s).

(** The profile of the data model: [age], [weight] and [height] are numbers
    or absent. *)
Definition number_or_absent (o : option value) : Prop :=
  match o with
  | None | Some VUndefined | Some VNull | Some (VNum _) => True
  | Some (VBool _) | Some (VStr _) => False
  end.

Definition profile_typed (p : object) : Prop :=
  number_or_absent (p !! "age") /\ number_or_absent (p !! "weight")
  /\ number_or_absent (p !! "height").

Definition session_typed (s : session) : Prop :=
  forall u p, user s = Some u -> profile u = Some p -> profile_typed p.

(** A field that is present and holds a number other than zero. *)
Definition present_nonzero (o : option value) : Prop :=
  exists n, o = Some (VNum n) /\ n <> 0.

Definition complete (s : session) : Prop :=
  exists u p, user s = Some u /\ profile u = Some p
    /\ present_nonzero (p !! "age") /\ present_nonzero (p !! "weight")
    /\ present_nonzero (p !! "height").

(** The user of the demo login of the API client. *)
Definition demo_profile : object :=
  {[ "age" := VNum 28; "weight" := VNum 70; "height" := VNum 175;
     "smoking" := VBool false; "drinking" := VBool true ]}.

Definition demo_user : account :=
  {| id := VStr "user-123"; email := VStr "user@example.com";
     profile := Some demo_profile |}.

Definition demo_session : session :=
  login demo_user "dummy-jwt-token-12345" (checkExistingSession initial).

End AuthContext.

(** ** ProtectedRoute.jsx *)

Module ProtectedRoute.
Import AuthContext.

(** What the guard returns: the spinner, [<Navigate to state={{from}} replace />],
    or its children. *)
Inductive element (A : Type) : Type :=
| Spinner
| Navigate (to : string) (from : string) (replace : bool)
| Children (children : A).
Arguments Spinner {A}.
Arguments Navigate {A} to from replace.
Arguments Children {A} children.

(** [pathname] is [useLocation().pathname], the requested destination. *)
Definition ProtectedRoute {A : Type} (children : A) (s : session) (pathname : string)
  : element A :=
  if loading s then Spinner
  else if negb (isAuthenticated s) then Navigate "/login" pathname true
  else Children children.

End ProtectedRoute.

(** ** PredictionForm.jsx *)

Module PredictionForm.
Import JS.

Record question : Type := Question {
  key : string;
  label : string;
  description : string;
  unit : string;
}.

(** One entry of [diseaseConfigs] (the [icon] element is left out). *)
Record disease_config : Type := DiseaseConfig {
  title : string;
  config_description : string;
  color : string;
  questions : list question;
}.

Definition diabetes : disease_config :=
  {| title := "Diabetes Risk Assessment";
     config_description :=
       "Rate the severity or frequency of each symptom/factor on a scale of 0-100";
     color := "text-blue-600";
     questions :=
       [ Question "frequent_urination" "Frequent Urination"
           "How often do you need to urinate, especially at night?" "%";
         Question "excessive_thirst" "Excessive Thirst"
           "How often do you feel unusually thirsty?" "%";
         Question "unexplained_weight_loss" "Unexplained Weight Loss"
           "Have you lost weight without trying?" "%";
         Question "fatigue" "Fatigue Levels"
           "How tired or fatigued do you feel regularly?" "%";
         Question "blurred_vision" "Blurred Vision"
           "How often do you experience blurred vision?" "%";
         Question "slow_healing" "Slow Healing Wounds"
           "Do cuts and wounds take longer to heal?" "%" ] |}.

Definition heart_disease : disease_config :=
  {| title := "Heart Disease Risk Assessment";
     config_description :=
       "Rate the severity or frequency of each cardiovascular symptom/factor";
     color := "text-red-600";
     questions :=
       [ Question "chest_pain" "Chest Pain Frequency"
           "How often do you experience chest pain or discomfort?" "%";
         Question "shortness_breath" "Shortness of Breath"
           "How often are you short of breath during normal activities?" "%";
         Question "high_blood_pressure" "Blood Pressure Concerns"
           "Rate your blood pressure levels (if known)" "%";
         Question "cholesterol_levels" "Cholesterol Levels"
           "Rate your cholesterol concerns (if known)" "%";
         Question "exercise_tolerance" "Exercise Intolerance"
           "How difficult is it to exercise or do physical activity?" "%";
         Question "family_history" "Family History"
           "How strong is your family history of heart disease?" "%" ] |}.

Definition thyroid : disease_config :=
  {| title := "Thyroid Disorder Assessment";
     config_description :=
       "Rate the severity or frequency of each thyroid-related symptom";
     color := "text-green-600";
     questions :=
       [ Question "weight_changes" "Unexplained Weight Changes"
           "Have you experienced sudden weight gain or loss?" "%";
         Question "energy_levels" "Low Energy Levels"
           "How often do you feel unusually tired or sluggish?" "%";
         Question "temperature_sensitivity" "Temperature Sensitivity"
           "Are you unusually sensitive to hot or cold?" "%";
         Question "hair_skin_changes" "Hair and Skin Changes"
           "Have you noticed changes in hair or skin texture?" "%";
         Question "mood_changes" "Mood Changes"
           "Have you experienced mood swings or depression?" "%";
         Question "sleep_patterns" "Sleep Pattern Changes"
           "Have your sleep patterns changed significantly?" "%" ] |}.

(** The own properties of the object literal [diseaseConfigs], in source
    order. *)
Definition diseaseConfigs_entries : list (string * disease_config) :=
  [ ("diabetes", diabetes); ("heart_disease", heart_disease); ("thyroid", thyroid) ].

Definition diseaseConfigs : gmap string disease_config :=
  list_to_map diseaseConfigs_entries.

(** [diseaseConfigs] is an object literal, so its prototype is
    [Object.prototype]: a property read that finds no own property goes on
    to the members every plain object inherits. *)
Definition Object_prototype : list string :=
  [ "constructor"; "hasOwnProperty"; "isPrototypeOf"; "propertyIsEnumerable";
    "toLocaleString"; "toString"; "valueOf"; "__proto__";
    "__defineGetter__"; "__defineSetter__"; "__lookupGetter__"; "__lookupSetter__" ].

(** The value of [diseaseConfigs[diseaseType]]: an entry of the literal, an
    inherited member (a function, or the prototype object for [__proto__]), or
    [undefined]. *)
Inductive property : Type :=
| Own (c : disease_config)
| Inherited (name : string)
| Missing.

Definition diseaseConfigs_get (diseaseType : string) : property :=
  match diseaseConfigs !! diseaseType with
  | Some c => Own c
  | None =>
      if bool_decide (diseaseType ∈ Object_prototype) then Inherited diseaseType
      else Missing
  end.

(** ToBoolean of a property read: only [undefined] is falsy. *)
Definition found (p : property) : bool :=
  match p with
  | Own _ | Inherited _ => true
  | Missing => false
  end.

(** The values of [currentStep]: ['form'], ['loading'], ['results']. *)
Inductive step_name : Type := StepForm | StepLoading | StepResults.

#[global] Instance step_name_eq_dec : EqDecision step_name.
Proof. solve_decision. Defined.

Record risk_factor : Type := RiskFactor { name : string; impact : Z }.

(** [response.data.data] of the prediction call. *)
Record prediction_data : Type := PredictionData {
  disease : string;
  prediction_percentage : Z;
  risk_factors : list risk_factor;
  timestamp : string;
}.

(** The four state cells of the component. *)
Record cells : Type := Cells {
  currentStep : step_name;
  symptoms : gmap string Z;
  prediction : option prediction_data;
  loading : bool;
}.

(** The initial values of the [useState] calls. *)
Definition mounted : cells :=
  {| currentStep := StepForm; symptoms := ∅; prediction := None; loading := false |}.

(** What a handler does besides setting cells. *)
Inductive effect : Type :=
| ToastError (msg : string)
| ToastSuccess (msg : string)
| NavigateTo (path : string)
| ConsoleError (msg : string)
| GetPrediction (disease : string) (symptoms : gmap string Z) (token : option string).

Definition is_request (e : effect) : bool :=
  match e with GetPrediction _ _ _ => true | _ => false end.

Definition is_error_toast (e : effect) : bool :=
  match e with ToastError _ => true | _ => false end.

Definition is_navigation (e : effect) : bool :=
  match e with NavigateTo _ => true | _ => false end.

(** The calls of [predictionsAPI.getPrediction] among the effects. *)
Definition requests (fx : list effect) : list effect := List.filter is_request fx.

Definition error_toasts (fx : list effect) : list effect := List.filter is_error_toast fx.

(** How the awaited promise of [getPrediction] settles: resolved with
    [response.data.success] and [response.data.data], or rejected. *)
Inductive settlement : Type :=
| Resolved (success : bool) (data : option prediction_data)
| Rejected (error : string).

(** The loop of the initialisation effect:
    [disease.questions.forEach(q => { initialSymptoms[q.key] = 0 })]. *)
Definition initialSymptoms (c : disease_config) : gmap string Z :=
  foldl (fun acc q => <[key q := 0]> acc) ∅ (questions c).

Section Component.

(** [useParams().diseaseType], and the session the component reads [token] and
    [isProfileComplete] from. *)
Variable diseaseType : string.
Variable auth : AuthContext.session.

Definition currentDisease : property := diseaseConfigs_get diseaseType.

(** The callback of [useEffect(..., [diseaseType])]. *)
Definition initialize (s : cells) : result (cells * list effect) :=
  let disease := diseaseConfigs_get diseaseType in
  if negb (found disease) then
    Ok (s, [ToastError "Invalid disease type"; NavigateTo "/predictions"])
  else if negb (truthy (AuthContext.isProfileComplete auth)) then
    Ok (s, [ToastError "Please complete your profile first"; NavigateTo "/profile"])
  else
    match disease with
    | Own c =>
        Ok ({| currentStep := currentStep s; symptoms := initialSymptoms c;
               prediction := prediction s; loading := loading s |}, [])
    | Inherited _ | Missing =>
        Throw (TypeError "Cannot read properties of undefined (reading 'forEach')")
    end.

(** [handleSymptomChange(key, value)]: [{ ...prev, [key]: value }]. *)
Definition handleSymptomChange (k : string) (v : Z) (s : cells) : cells :=
  {| currentStep := currentStep s; symptoms := <[k := v]> (symptoms s);
     prediction := prediction s; loading := loading s |}.

(** [Object.values(symptoms).reduce((sum, value) => sum + value, 0)]. *)
Definition totalScore (s : cells) : Z :=
  map_fold (fun _ v sum => sum + v) 0 (symptoms s).

Definition validateForm (s : cells) : bool * list effect :=
  if totalScore s =? 0
  then (false, [ToastError "Please provide at least some symptom information"])
  else (true, []).

(** [handleSubmit] up to its [await]. *)
Definition handleSubmit_start (s : cells) : cells * list effect :=
  let (valid, fx) := validateForm s in
  if negb valid then (s, fx)
  else
    ({| currentStep := StepLoading; symptoms := symptoms s;
        prediction := prediction s; loading := true |},
     fx ++ [GetPrediction diseaseType (symptoms s) (AuthContext.token auth)]).

(** [handleSubmit] from the settlement of the awaited call on: the rest of
    the [try] block, the [catch] block, then the [finally] block. *)
Definition handleSubmit_settle (o : settlement) (s : cells) : cells * list effect :=
  let (s1, fx) :=
    match o with
    | Resolved true data =>
        ({| currentStep := StepResults; symptoms := symptoms s;
            prediction := data; loading := loading s |},
         [ToastSuccess "Prediction completed successfully!"])
    | Resolved false _ => (s, [])
    | Rejected _ =>
        ({| currentStep := StepForm; symptoms := symptoms s;
            prediction := prediction s; loading := loading s |},
         [ConsoleError "Prediction error:";
          ToastError "Failed to generate prediction. Please try again."])
    end in
  ({| currentStep := currentStep s1; symptoms := symptoms s1;
      prediction := prediction s1; loading := false |}, fx).

(** The whole of [handleSubmit], the awaited call settling as [o]: the
    function returns at the failed validation, and otherwise goes through the
    call to the settlement. *)
Definition handleSubmit (o : settlement) (s : cells) : cells * list effect :=
  let (valid, fx) := validateForm s in
  if negb valid then (s, fx)
  else
    let s1 := {| currentStep := StepLoading; symptoms := symptoms s;
                 prediction := prediction s; loading := true |} in
    let call := GetPrediction diseaseType (symptoms s) (AuthContext.token auth) in
    let (s2, fx2) := handleSubmit_settle o s1 in
    (s2, fx ++ [call] ++ fx2).

Definition handleBack (s : cells) : cells * list effect :=
  match currentStep s with
  | StepResults =>
      ({| currentStep := StepForm; symptoms := symptoms s;
          prediction := None; loading := loading s |}, [])
  | _ => (s, [NavigateTo "/predictions"])
  end.

(** What the component renders that can raise an event: the form with one
    slider per question and the submit button is rendered when the disease is
    an entry of the catalog and [currentStep === 'form']; the button carries
    [disabled={loading}]. *)
Definition form_rendered (s : cells) : option disease_config :=
  match currentDisease, currentStep s with
  | Own c, StepForm => Some c
  | _, _ => None
  end.

Definition submit_enabled (s : cells) : bool :=
  match form_rendered s with
  | Some _ => negb (loading s)
  | None => false
  end.

(** The component with the calls it has issued that have not settled yet. *)
Record runtime : Type := Runtime {
  state : cells;
  pending : list effect;
  log : list effect;
}.

Definition started : runtime := {| state := mounted; pending := []; log := [] |}.

(** The events that reach the mounted component. A slider is an
    [<input type="range" min={0} max={100} step={1}>], so the value it reports
    is an integer between its bounds. *)
Inductive event : runtime -> runtime -> Prop :=
| ev_effect r s' fx :
    initialize (state r) = Ok (s', fx) ->
    event r {| state := s'; pending := pending r; log := log r ++ fx |}
| ev_slider r c q v :
    form_rendered (state r) = Some c -> q ∈ questions c -> 0 <= v <= 100 ->
    event r {| state := handleSymptomChange (key q) v (state r);
               pending := pending r; log := log r |}
| ev_submit r s' fx :
    submit_enabled (state r) = true ->
    handleSubmit_start (state r) = (s', fx) ->
    event r {| state := s'; pending := pending r ++ requests fx; log := log r ++ fx |}
| ev_settle r call rest o s' fx :
    pending r = call :: rest ->
    handleSubmit_settle o (state r) = (s', fx) ->
    event r {| state := s'; pending := rest; log := log r ++ fx |}
| ev_back r s' fx :
    handleBack (state r) = (s', fx) ->
    event r {| state := s'; pending := pending r; log := log r ++ fx |}.

Inductive reachable_runtime : runtime -> Prop :=
| reachable_started : reachable_runtime started
| reachable_event r r' : reachable_runtime r -> event r r' -> reachable_runtime r'.

(** While a call is pending the component shows the loading step. *)
Definition exclusive (r : runtime) : Prop :=
  pending r = []
  \/ (exists call, pending r = [call])
     /\ currentStep (state r) = StepLoading /\ loading (state r) = true.

(** Every stored answer is within the bounds of a slider and under the key
    of a question of the entry. *)
Definition answers_bounded (s : cells) : Prop :=
  forall k v, symptoms s !! k = Some v ->
    0 <= v <= 100
    /\ exists c q, currentDisease = Own c /\ q ∈ questions c /\ key q = k.

End Component.

(** [getRiskLevel(percentage)]. *)
Record risk_level : Type := RiskLevel {
  level : string;
  level_color : string;
  bgColor : string;
}.

Definition getRiskLevel (percentage : Z) : risk_level :=
  if percentage <? 25 then RiskLevel "Low" "text-green-600" "bg-green-100"
  else if percentage <? 50 then RiskLevel "Moderate" "text-yellow-600" "bg-yellow-100"
  else if percentage <? 75 then RiskLevel "High" "text-orange-600" "bg-orange-100"
  else RiskLevel "Very High" "text-red-600" "bg-red-100".

(** The count the progress indicator shows:
    [Object.values(symptoms).filter(v => v > 0).length]. *)
Definition answeredCount (s : cells) : nat :=
  length (List.filter (fun kv : string * Z => 0 <? kv.2) (map_to_list (symptoms s))).

(** What a logged call must look like: the disease type of the route, the
    token of the session, and answers within the slider bounds that do not
    add up to zero. *)
Definition request_well_formed
  (diseaseType : string) (auth : AuthContext.session) (e : effect) : Prop :=
  match e with
  | GetPrediction d answers tk =>
      d = diseaseType /\ tk = AuthContext.token auth
      /\ map_fold (fun _ v sum => sum + v) 0 answers <> 0
      /\ map_Forall (fun _ v => 0 <= v <= 100) answers
  | _ => True
  end.

End PredictionForm.

(** ** Profile.jsx *)

Module Profile.

(** [getRiskColor(percentage)], the colouring of the history table. *)
Definition getRiskColor (percentage : Z) : string :=
  if percentage <? 25 then "text-green-600 bg-green-100"
  else if percentage <? 50 then "text-yellow-600 bg-yellow-100"
  else if percentage <? 75 then "text-orange-600 bg-orange-100"
  else "text-red-600 bg-red-100".

End Profile.

(** ** The risk tiers as the specification words them *)

Module Tier.

Inductive tier : Type := Low | Moderate | High | VeryHigh.

(** The threshold table of the specification, clause by clause. *)
Definition tier_at (p : Z) (t : tier) : Prop :=
  match t with
  | Low => p < 25
  | Moderate => 25 <= p < 50
  | High => 50 <= p < 75
  | VeryHigh => p >= 75
  end.

(** The tier a result card names in its heading. *)
Definition of_level (l : string) : option tier :=
  if String.eqb l "Low" then Some Low
  else if String.eqb l "Moderate" then Some Moderate
  else if String.eqb l "High" then Some High
  else if String.eqb l "Very High" then Some VeryHigh
  else None.

(** The tier a badge shows by its colour classes. *)
Definition of_classes (c : string) : option tier :=
  if String.eqb c "text-green-600 bg-green-100" then Some Low
  else if String.eqb c "text-yellow-600 bg-yellow-100" then Some Moderate
  else if String.eqb c "text-orange-600 bg-orange-100" then Some High
  else if String.eqb c "text-red-600 bg-red-100" then Some VeryHigh
  else None.

(** The order of the tiers. *)
Definition rank (t : tier) : nat :=
  match t with Low => 0 | Moderate => 1 | High => 2 | VeryHigh => 3 end.

End Tier.

(** ** A run of the diabetes assessment on the demo account *)

Module Demo.
Import PredictionForm.

(** The cells after the initialisation effect. *)
Definition seeded : cells :=
  {| currentStep := StepForm; symptoms := initialSymptoms diabetes;
     prediction := None; loading := false |}.

(** One slider moved. *)
Definition answered : cells := handleSymptomChange "fatigue" 40 seeded.

Definition request : effect :=
  GetPrediction "diabetes" (symptoms answered) (Some "dummy-jwt-token-12345").

(** The cells between the submission and the settlement of its call. *)
Definition submitting : cells :=
  {| currentStep := StepLoading; symptoms := symptoms answered;
     prediction := None; loading := true |}.

Definition in_flight : runtime :=
  {| state := submitting; pending := [request]; log := [request] |}.

End Demo.

(** ** Navbar.jsx, Login.jsx and Predictions.jsx: the callers of the store *)

Module Navbar.
Import AuthContext PredictionForm.

(** [handleLogout]: [logout(); navigate('/'); setIsMobileMenuOpen(false)].
    The result is the session, the effects and the menu flag. *)
Definition handleLogout (s : session) (isMobileMenuOpen : bool)
  : session * list effect * bool :=
  (logout s, [NavigateTo "/"], false).

End Navbar.

(** ** Strings as the validators see them *)

Module Text.

(** A JavaScript string is a sequence of UTF-16 code units; the validators
    look at lengths and at single code units. *)
Abbreviation jsstring := (list Z).

(** The code units of an ASCII literal. *)
Definition units (s : string) : jsstring :=
  map (fun a => Z.of_N (Ascii.N_of_ascii a)) (String.list_ascii_of_string s).

(** The regular expressions of the validators are built from character
    classes, concatenation and [+]. *)
Inductive regex : Type :=
| Class (p : Z -> bool)
| Seq (r1 r2 : regex)
| Plus (r : regex).

(** The strings a regular expression matches as a whole. *)
Inductive matches : regex -> jsstring -> Prop :=
| matches_class p c : p c = true -> matches (Class p) [c]
| matches_seq r1 r2 u v :
    matches r1 u -> matches r2 v -> matches (Seq r1 r2) (u ++ v)
| matches_plus_once r u : matches r u -> matches (Plus r) u
| matches_plus_more r u v :
    matches r u -> matches (Plus r) v -> matches (Plus r) (u ++ v).

(** All the ways to go on [step] by [step], at most [fuel] times: what is
    left of the input after each. *)
Fixpoint iterate (step : jsstring -> list jsstring) (fuel : nat) (w : jsstring)
  : list jsstring :=
  match fuel with
  | O => []
  | S n => step w ++ flat_map (iterate step n) (step w)
  end.

(** What is left of [w] after each way of matching a prefix of it. *)
Fixpoint run (r : regex) (w : jsstring) : list jsstring :=
  match r with
  | Class p =>
      match w with
      | c :: w' => if p c then [w'] else []
      | [] => []
      end
  | Seq r1 r2 => flat_map (run r2) (run r1 w)
  | Plus r1 => iterate (run r1) (length w) w
  end.

Fixpoint tails (w : jsstring) : list jsstring :=
  w :: match w with
       | [] => []
       | _ :: w' => tails w'
       end.

(** [r.test(w)] for a regular expression without flags or anchors: some
    substring of [w] matches. *)
Definition test (r : regex) (w : jsstring) : bool :=
  existsb (fun suffix => match run r suffix with [] => false | _ :: _ => true end)
          (tails w).

(** [\s]: the white space and line terminator code units. *)
Definition is_space (c : Z) : bool :=
  bool_decide (c ∈ [9; 10; 11; 12; 13; 32; 160; 5760; 8232; 8233; 8239; 8287;
                    12288; 65279])
  || ((8192 <=? c) && (c <=? 8202)).

(** [\S], [[A-Z]], [[a-z]], [\d] and a single character. *)
Definition non_space (c : Z) : bool := negb (is_space c).
Definition upper (c : Z) : bool := (65 <=? c) && (c <=? 90).
Definition lower (c : Z) : bool := (97 <=? c) && (c <=? 122).
Definition digit (c : Z) : bool := (48 <=? c) && (c <=? 57).
Definition char (x : Z) (c : Z) : bool := c =? x.

(** The class of special characters of the password check: the punctuation
    of the literal, the double quote (34) among it. *)
Definition special_characters : list Z :=
  units "!@#$%^&*(),.?" ++ [34] ++ units ":{}|<>".

Definition special (c : Z) : bool := bool_decide (c ∈ special_characters).

(** [/\S+@\S+\.\S+/], the e-mail pattern of the login and registration
    forms. *)
Definition email_pattern : regex :=
  Seq (Plus (Class non_space))
    (Seq (Class (char 64))
       (Seq (Plus (Class non_space))
          (Seq (Class (char 46)) (Plus (Class non_space))))).

(** [s.replace(pattern, replacement)] with a string pattern: the first
    occurrence is replaced. *)
Fixpoint strip_prefix (pattern s : string) : option string :=
  match pattern, s with
  | EmptyString, _ => Some s
  | String a pattern', String b s' =>
      if Ascii.eqb a b then strip_prefix pattern' s' else None
  | String _ _, EmptyString => None
  end.

Fixpoint replace (pattern replacement s : string) : string :=
  match strip_prefix pattern s with
  | Some rest => replacement +:+ rest
  | None =>
      match s with
      | EmptyString => EmptyString
      | String c s' => String c (replace pattern replacement s')
      end
  end.

End Text.

Module Login.

(** [location.state?.from || '/dashboard']: [state] is [None] when the
    location carries no state, and the [from] of the state otherwise. *)
Definition from (state : option string) : string :=
  match state with
  | Some f => if String.eqb f "" then "/dashboard" else f
  | None => "/dashboard"
  end.

(** The fields of the login form. *)
Record form : Type := Form {
  email : Text.jsstring;
  password : Text.jsstring;
}.

(** [validateForm()]: the errors it sets and what it returns,
    [Object.keys(newErrors).length === 0]. *)
Definition validateForm (formData : form) : gmap string string * bool :=
  let newErrors : gmap string string := ∅ in
  let newErrors :=
    match email formData with
    | [] => <["email" := "Email is required"]> newErrors
    | _ :: _ =>
        if negb (Text.test Text.email_pattern (email formData))
        then <["email" := "Please enter a valid email address"]> newErrors
        else newErrors
    end in
  let newErrors :=
    match password formData with
    | [] => <["password" := "Password is required"]> newErrors
    | _ :: _ =>
        if (Z.of_nat (length (password formData)) <? 6)%Z
        then <["password" := "Password must be at least 6 characters"]> newErrors
        else newErrors
    end in
  (newErrors, bool_decide (size newErrors = 0%nat)).

(** What [handleSubmit] does besides setting the session. *)
Inductive effect : Type :=
| ToastError (msg : string)
| ToastSuccess (msg : string)
| ConsoleError (msg : string)
| CallLogin (credentials : form)
| Navigate (to : string) (replace : bool).

Definition is_call (e : effect) : bool :=
  match e with CallLogin _ => true | _ => false end.

Definition is_error_toast (e : effect) : bool :=
  match e with ToastError _ => true | _ => false end.

(** How the awaited [authAPI.login] settles: resolved with
    [response.data.success] and the [user] and [token] of
    [response.data.data], or rejected with an error whose message parses as
    JSON with the given [message] property ([None]: it does not parse, or has
    no such property). *)
Inductive settlement : Type :=
| Resolved (success : bool) (user : AuthContext.account) (token : string)
| Rejected (message : option string).

(** [errorData.message || errorMessage]. *)
Definition errorMessage (o : option string) : string :=
  match o with
  | Some m => if String.eqb m "" then "Login failed. Please try again." else m
  | None => "Login failed. Please try again."
  end.

(** [handleSubmit], the awaited call settling as [api] says for the
    credentials sent; [state] is the state of the location. *)
Definition handleSubmit
  (api : form -> settlement) (state : option string)
  (formData : form) (s : AuthContext.session) : AuthContext.session * list effect :=
  if negb (validateForm formData).2 then
    (s, [ToastError "Please fix the errors below"])
  else
    match api formData with
    | Resolved true user token =>
        (AuthContext.login user token s,
         [CallLogin formData; ToastSuccess "Login successful! Welcome back.";
          Navigate (from state) true])
    | Resolved false _ _ => (s, [CallLogin formData])
    | Rejected message =>
        (s, [CallLogin formData; ToastError (errorMessage message);
             ConsoleError "Login error:"])
    end.

End Login.

Module Predictions.
Import JS PredictionForm.

(** The [id] of the three [diseaseCards], in source order. *)
Definition diseaseCards : list string := [ "diabetes"; "heart_disease"; "thyroid" ].

(** [handlePredictionClick(diseaseId)]. *)
Definition handlePredictionClick (auth : AuthContext.session) (diseaseId : string)
  : list effect :=
  if negb (truthy (AuthContext.isProfileComplete auth)) then
    [ToastError "Please complete your profile before making predictions.";
     NavigateTo "/profile"]
  else [NavigateTo ("/predict/" +:+ diseaseId)].

End Predictions.

(** ** apiClient.js: the dummy login *)

Module ApiClient.

(** [authAPI.login(credentials)]: the demo account for the demo credentials,
    and an error whose message is the JSON of [{ success: false,
    statusCode: 401, message: 'Invalid credentials.' }] otherwise. *)
Definition login (credentials : Login.form) : Login.settlement :=
  if bool_decide (Login.email credentials = Text.units "user@example.com")
     && bool_decide (Login.password credentials = Text.units "password123")
  then Login.Resolved true
         {| AuthContext.id := JS.VStr "user-123";
            AuthContext.email := JS.VStr "user@example.com";
            AuthContext.profile := Some AuthContext.demo_profile |}
         "dummy-jwt-token-12345"
  else Login.Rejected (Some "Invalid credentials.").

(** [authAPI.register(userData)]: succeeds when [userData.email] and
    [userData.password] are both truthy (nonempty), and throws an error whose
    message is the JSON of a failure with the given message otherwise. The
    result is [None] for the success and the parsed message for the error. *)
Definition register (email password : Text.jsstring) : option string :=
  match email, password with
  | _ :: _, _ :: _ => None
  | _, _ => Some "Registration failed. Please check your details."
  end.

End ApiClient.

(** ** Register.jsx *)

Module Register.
Import JS.

Record form : Type := Form {
  email : Text.jsstring;
  password : Text.jsstring;
  confirmPassword : Text.jsstring;
}.

(** One criterion of [checkPasswordStrength]:
    [if (met) score++; else feedback.push(hint)]. *)
Definition criterion (met : bool) (hint : string) (acc : nat * list string)
  : nat * list string :=
  if met then (S acc.1, acc.2) else (acc.1, acc.2 ++ [hint]).

Definition criteria (password : Text.jsstring) : nat * list string :=
  let acc := (0%nat, []) in
  let acc := criterion (8 <=? Z.of_nat (length password))%Z "At least 8 characters" acc in
  let acc := criterion (Text.test (Text.Class Text.upper) password)
               "One uppercase letter" acc in
  let acc := criterion (Text.test (Text.Class Text.lower) password)
               "One lowercase letter" acc in
  let acc := criterion (Text.test (Text.Class Text.digit) password) "One number" acc in
  let acc := criterion (Text.test (Text.Class Text.special) password)
               "One special character" acc in
  acc.

(** A password that meets each of the five criteria. *)
Definition all_criteria (password : Text.jsstring) : Prop :=
  (8 <= length password)%nat
  /\ (exists c, c ∈ password /\ Text.upper c = true)
  /\ (exists c, c ∈ password /\ Text.lower c = true)
  /\ (exists c, c ∈ password /\ Text.digit c = true)
  /\ (exists c, c ∈ password /\ Text.special c = true).

(** What [checkPasswordStrength] returns; [strength] and [color] are reads of
    five-element arrays at [score] ([None] for [undefined]). *)
Record password_strength : Type := PasswordStrength {
  score : nat;
  strength : option string;
  color : option string;
  feedback : list string;
}.

Definition checkPasswordStrength (password : Text.jsstring) : password_strength :=
  let acc := criteria password in
  {| score := acc.1;
     strength := [ "Very Weak"; "Weak"; "Fair"; "Good"; "Strong" ] !! acc.1;
     color := [ "text-red-600"; "text-red-500"; "text-yellow-500"; "text-blue-500";
                "text-green-500" ] !! acc.1;
     feedback := acc.2 |}.

(** The class of one bar of the strength indicator:
    [i < score ? color.replace('text-', 'bg-') : 'bg-gray-200']. *)
Definition bar (st : password_strength) (i : nat) : result string :=
  if (i <? score st)%nat then
    match color st with
    | Some c => Ok (Text.replace "text-" "bg-" c)
    | None => Throw (TypeError "Cannot read properties of undefined (reading 'replace')")
    end
  else Ok "bg-gray-200".

(** [[...Array(5)].map((_, i) => ...)]: the five bars, left to right. *)
Fixpoint bars (st : password_strength) (indices : list nat) : result (list string) :=
  match indices with
  | [] => Ok []
  | i :: rest =>
      match bar st i with
      | Throw e => Throw e
      | Ok b =>
          match bars st rest with
          | Throw e => Throw e
          | Ok bs => Ok (b :: bs)
          end
      end
  end.

(** The strength indicator as the page renders it: nothing for an empty
    password, the five bars otherwise. *)
Definition strengthIndicator (password : Text.jsstring) : result (option (list string)) :=
  match password with
  | [] => Ok None
  | _ :: _ =>
      match bars (checkPasswordStrength password) [0; 1; 2; 3; 4]%nat with
      | Throw e => Throw e
      | Ok bs => Ok (Some bs)
      end
  end.

(** [validateForm()]. *)
Definition validateForm (formData : form) : gmap string string * bool :=
  let newErrors : gmap string string := ∅ in
  let newErrors :=
    match email formData with
    | [] => <["email" := "Email is required"]> newErrors
    | _ :: _ =>
        if negb (Text.test Text.email_pattern (email formData))
        then <["email" := "Please enter a valid email address"]> newErrors
        else newErrors
    end in
  let newErrors :=
    match password formData with
    | [] => <["password" := "Password is required"]> newErrors
    | _ :: _ =>
        let passwordStrength := checkPasswordStrength (password formData) in
        if (score passwordStrength <? 3)%nat
        then <["password" := "Password is too weak. Please include: "
                             +:+ String.concat ", " (feedback passwordStrength)]> newErrors
        else newErrors
    end in
  let newErrors :=
    match confirmPassword formData with
    | [] => <["confirmPassword" := "Please confirm your password"]> newErrors
    | _ :: _ =>
        if negb (bool_decide (password formData = confirmPassword formData))
        then <["confirmPassword" := "Passwords do not match"]> newErrors
        else newErrors
    end in
  (newErrors, bool_decide (size newErrors = 0%nat)).

(** What [handleSubmit] of the registration page does. *)
Inductive effect : Type :=
| ToastError (msg : string)
| ToastSuccess (msg : string)
| ConsoleError (msg : string)
| CallRegister (email password : Text.jsstring)
| Navigate (to : string).

Definition is_error_toast (e : effect) : bool :=
  match e with ToastError _ => true | _ => false end.

Definition is_call (e : effect) : bool :=
  match e with CallRegister _ _ => true | _ => false end.

(** How the awaited [authAPI.register] settles: resolved with
    [response.data.success], or rejected with an error whose message parses
    as JSON with the given [message] property ([None]: it does not parse or
    has none). *)
Inductive settlement : Type :=
| Resolved (success : bool)
| Rejected (message : option string).

(** [errorData.message || errorMessage]. *)
Definition errorMessage (o : option string) : string :=
  match o with
  | Some m => if String.eqb m "" then "Registration failed. Please try again." else m
  | None => "Registration failed. Please try again."
  end.

(** [handleSubmit]: the call is made with the e-mail and the password of the
    form, and settles as [api] says. *)
Definition handleSubmit
  (api : Text.jsstring -> Text.jsstring -> settlement) (formData : form) : list effect :=
  if negb (validateForm formData).2 then [ToastError "Please fix the errors below"]
  else
    let call := CallRegister (email formData) (password formData) in
    match api (email formData) (password formData) with
    | Resolved true =>
        [call; ToastSuccess "Registration successful! Please log in."; Navigate "/login"]
    | Resolved false => [call]
    | Rejected message =>
        [call; ToastError (errorMessage message); ConsoleError "Registration error:"]
    end.

(** The dummy API as a settlement. *)
Definition dummy_api (email password : Text.jsstring) : settlement :=
  match ApiClient.register email password with
  | None => Resolved true
  | Some message => Rejected (Some message)
  end.

End Register.

(** * Properties *)

(** ** Session store *)

Module AuthContextFacts.
Import JS AuthContext.

Lemma consistent_initial : consistent initial.
Proof.
  unfold consistent; simpl. split; [discriminate|].
  intros [[t Ht] _]. discriminate.
Qed.

Lemma updateUserProfile_Ok_inv p s s' :
  updateUserProfile p s = Ok s' ->
  exists u, user s = Some u
    /\ s' = {| isAuthenticated := isAuthenticated s;
               user := Some {| id := id u; email := email u;
                               profile := Some (spread2 (default ∅ (profile u)) p) |};
               token := token s; loading := loading s |}.
Proof.
  unfold updateUserProfile, updateUser. destruct (user s) as [u|]; [|discriminate].
  intros H. injection H as <-. by exists u.
Qed.

Lemma consistent_step s s' : consistent s -> step s s' -> consistent s'.
Proof.
  unfold consistent. intros Hs Hstep. destruct Hstep as [s|s u t|s|s p s' Hupd]; simpl.
  - exact Hs.
  - split; [intros _; split; eauto | reflexivity].
  - split; [discriminate | intros [[t Ht] _]; discriminate].
  - apply updateUserProfile_Ok_inv in Hupd as (u & Hu & ->); simpl.
    rewrite Hu in Hs. rewrite Hs. split; intros [Ht _]; split; eauto.
Qed.

(** C1. In every state of the session store reachable from the initial one
    by the mount effect, [login], [logout] and [updateUserProfile],
    [isAuthenticated] is true exactly when both the token and the user are
    present. *)
Theorem authenticated_iff_token_and_user (s : session) :
  reachable s ->
  isAuthenticated s = true <-> is_Some (token s) /\ is_Some (user s).
Proof.
  intros Hr. change (consistent s).
  induction Hr as [|s s' _ IH Hstep].
  - apply consistent_initial.
  - by eapply consistent_step.
Qed.

Lemma demo_session_reachable : reachable demo_session.
Proof.
  unfold demo_session.
  eapply reachable_step; [|apply step_login].
  eapply reachable_step; [|apply step_init].
  apply reachable_initial.
Qed.

Lemma authenticated_iff_token_and_user_witness :
  isAuthenticated demo_session = true
  <-> is_Some (token demo_session) /\ is_Some (user demo_session).
Proof.
  apply (authenticated_iff_token_and_user demo_session).
  apply demo_session_reachable.
Defined.

(** [logout] after [login] and a profile update: a longer run of the store. *)
Example logout_clears :
  forall p s', updateUserProfile p demo_session = Ok s' ->
  isAuthenticated (logout s') = false /\ user (logout s') = None /\ token (logout s') = None.
Proof. intros p s' _. by repeat split. Qed.

(** *** Profile completeness *)

Lemma truthy_number_or_absent (o : option value) :
  number_or_absent o ->
  truthy (default VUndefined o) = true <-> present_nonzero o.
Proof.
  unfold present_nonzero.
  destruct o as [[| |b|n|str]|]; simpl; intros Hty; try contradiction.
  - split; [discriminate | intros (n & Hn & _); discriminate].
  - split; [discriminate | intros (n & Hn & _); discriminate].
  - rewrite negb_true_iff, Z.eqb_neq. split.
    + intros Hn. by exists n.
    + intros (m & Hm & Hne). by injection Hm as ->.
  - split; [discriminate | intros (n & Hn & _); discriminate].
Qed.

Lemma truthy_and (a b : value) :
  truthy (and a b) = truthy a && truthy b.
Proof. unfold and. destruct (truthy a) eqn:Ha; simpl; [done | exact Ha]. Qed.

(** The completeness check read as a condition. On a session whose profile
    follows the data model ([age], [weight] and [height] are numbers or
    absent), [isProfileComplete()], taken through ToBoolean the way every
    caller takes it, holds exactly when an account with a profile is present
    and the three fields are all present and nonzero, and fails in every
    other case; without an account or without a profile it returns the
    literal [false]. *)
Theorem isProfileComplete_iff_present_nonzero (s : session) :
  session_typed s ->
  (truthy (isProfileComplete s) = true <-> complete s)
  /\ (~ complete s -> truthy (isProfileComplete s) = false)
  /\ (user s = None -> isProfileComplete s = VBool false)
  /\ (forall u, user s = Some u -> profile u = None -> isProfileComplete s = VBool false).
Proof.
  intros Hty.
  assert (Hiff : truthy (isProfileComplete s) = true <-> complete s).
  { unfold isProfileComplete, complete.
    destruct (user s) as [u|] eqn:Hu.
    2:{ split; [discriminate | intros (u & p & Hu' & _); discriminate]. }
    destruct (profile u) as [p|] eqn:Hp.
    2:{ split; [discriminate|]. intros (u' & p & Hu' & Hp' & _).
        injection Hu' as <-. congruence. }
    destruct (Hty u p Hu Hp) as (Ha & Hw & Hh).
    rewrite !truthy_and, !andb_true_iff. unfold get.
    rewrite (truthy_number_or_absent _ Ha), (truthy_number_or_absent _ Hw),
      (truthy_number_or_absent _ Hh).
    split.
    - intros [[Ha' Hw'] Hh']. by exists u, p.
    - intros (u' & p' & Hu' & Hp' & Ha' & Hw' & Hh').
      injection Hu' as <-. rewrite Hp in Hp'. injection Hp' as <-. done. }
  split; [exact Hiff|]. split; [|split].
  - intros Hn. apply not_true_is_false. by rewrite Hiff.
  - intros Hu. unfold isProfileComplete. by rewrite Hu.
  - intros u Hu Hp. unfold isProfileComplete. by rewrite Hu, Hp.
Qed.

Lemma demo_session_typed : session_typed demo_session.
Proof.
  intros u p Hu Hp. injection Hu as <-. injection Hp as <-.
  unfold profile_typed. by vm_compute.
Qed.

Lemma isProfileComplete_iff_present_nonzero_witness :
  (truthy (isProfileComplete demo_session) = true <-> complete demo_session)
  /\ (~ complete demo_session -> truthy (isProfileComplete demo_session) = false)
  /\ (user demo_session = None -> isProfileComplete demo_session = VBool false)
  /\ (forall u, user demo_session = Some u -> profile u = None ->
      isProfileComplete demo_session = VBool false).
Proof.
  apply (isProfileComplete_iff_present_nonzero demo_session).
  apply demo_session_typed.
Defined.

(** What [isProfileComplete()] returns on the demo account, on an account
    whose age is zero, and on an account without profile. *)
Example isProfileComplete_demo : isProfileComplete demo_session = VNum 175.
Proof. by vm_compute. Qed.

Example isProfileComplete_zero_age :
  isProfileComplete
    (login {| id := VStr "u"; email := VStr "e";
              profile := Some (<["age" := VNum 0]> demo_profile) |} "t" initial)
  = VNum 0.
Proof. by vm_compute. Qed.

Example isProfileComplete_fresh_registration :
  isProfileComplete
    (login {| id := VStr "u"; email := VStr "e"; profile := None |} "t" initial)
  = VBool false.
Proof. reflexivity. Qed.

(** C3, at the failing input. The function is documented to return a
    boolean, but it returns the value of [age && weight && height]: on the
    demo account, whose profile is complete, it returns 175 and not [true];
    on the same account with the age at zero, whose profile is not complete,
    it returns 0 and not [false]. *)
Theorem isProfileComplete_returns_operand :
  complete demo_session
  /\ isProfileComplete demo_session = VNum 175
  /\ isProfileComplete demo_session <> VBool true
  /\ (let zero_age :=
        login {| id := VStr "user-123"; email := VStr "user@example.com";
                 profile := Some (<["age" := VNum 0]> demo_profile) |}
          "dummy-jwt-token-12345" (checkExistingSession initial) in
      ~ complete zero_age
      /\ isProfileComplete zero_age = VNum 0
      /\ isProfileComplete zero_age <> VBool false).
Proof.
  split; [|split; [|split]].
  - exists demo_user, demo_profile. split; [reflexivity|]. split; [reflexivity|].
    split; [|split].
    + exists 28. split; [by vm_compute | lia].
    + exists 70. split; [by vm_compute | lia].
    + exists 175. split; [by vm_compute | lia].
  - by vm_compute.
  - by vm_compute.
  - cbv zeta. split; [|split].
    + intros (u & p & Hu & Hp & (n & Hn & Hne) & _).
      injection Hu as <-. injection Hp as <-.
      vm_compute in Hn. injection Hn as <-. by apply Hne.
    + by vm_compute.
    + by vm_compute.
Qed.

(** *** Profile update *)

(** With an account present the update is a shallow merge into the profile
    and touches nothing else. *)
Lemma updateUserProfile_frame (p : object) (s : session) (u : account) :
  user s = Some u ->
  exists s' u',
    updateUserProfile p s = Ok s' /\ user s' = Some u'
    /\ id u' = id u /\ email u' = email u
    /\ token s' = token s /\ isAuthenticated s' = isAuthenticated s
    /\ loading s' = loading s
    /\ exists q, profile u' = Some q /\
         forall k, q !! k = match p !! k with
                            | Some v => Some v
                            | None => default ∅ (profile u) !! k
                            end.
Proof.
  intros Hu. unfold updateUserProfile, updateUser. rewrite Hu.
  eexists _, _. repeat split. eexists. split; [reflexivity|].
  intros k. unfold spread2. rewrite lookup_union.
  destruct (p !! k) as [v|]; simpl.
  - by destruct (default ∅ (profile u) !! k).
  - by destruct (default ∅ (profile u) !! k).
Qed.

(** C9, at the failing input. Without an account the updater reads
    [prev.profile] of [null]: the update throws, it is not a silent no-op
    that hands the state back. *)
Theorem updateUserProfile_without_account_throws :
  user initial = None
  /\ forall updatedProfile : object,
       updateUserProfile updatedProfile initial
       = Throw (TypeError "Cannot read properties of null (reading 'profile')")
       /\ updateUserProfile updatedProfile initial <> Ok initial.
Proof. split; [reflexivity|]. intros p. split; [reflexivity | discriminate]. Qed.

End AuthContextFacts.

(** ** Route guard *)

Module ProtectedRouteFacts.
Import AuthContext ProtectedRoute.

(** C2. The guard returns exactly one of three outcomes, each under its own
    condition: the spinner exactly while [loading]; the redirect to
    ["/login"], carrying the requested path, exactly when not loading and not
    authenticated; its children exactly when not loading and authenticated.
    While loading it neither renders the children nor redirects. *)
Theorem ProtectedRoute_outcomes {A : Type} (children : A) (s : session) (pathname : string) :
  let r := ProtectedRoute children s pathname in
  (r = Spinner <-> loading s = true)
  /\ (r = Navigate "/login" pathname true
      <-> loading s = false /\ isAuthenticated s = false)
  /\ (r = Children children <-> loading s = false /\ isAuthenticated s = true)
  /\ (r = Spinner \/ r = Navigate "/login" pathname true \/ r = Children children)
  /\ (loading s = true ->
      r <> Children children /\ forall to from replace, r <> Navigate to from replace).
Proof.
  unfold ProtectedRoute.
  destruct (loading s), (isAuthenticated s); simpl;
    repeat split; try discriminate; try tauto; auto;
    try (intros [? ?]; discriminate); try (intros; discriminate).
Qed.

(** After [logout] the guard redirects once the start-up check is over. *)
Example ProtectedRoute_after_logout :
  ProtectedRoute tt (logout demo_session) "/profile" = Navigate "/login" "/profile" true.
Proof. reflexivity. Qed.

End ProtectedRouteFacts.

(** ** Assessment workflow *)

Module PredictionFormFacts.
Import JS PredictionForm.

(** *** The catalog and the initialisation effect *)

Lemma diseaseConfigs_lookup (t : string) :
  diseaseConfigs !! t =
    if decide (t = "diabetes") then Some diabetes
    else if decide (t = "heart_disease") then Some heart_disease
    else if decide (t = "thyroid") then Some thyroid
    else None.
Proof.
  unfold diseaseConfigs, diseaseConfigs_entries; simpl.
  repeat case_decide; subst; simplify_map_eq; done.
Qed.

(** The keys of [initialSymptoms c] are the question keys of [c], each
    mapped to 0. *)
Lemma seed_lookup (l : list question) (acc : gmap string Z) (k : string) :
  foldl (fun acc q => <[key q := 0]> acc) acc l !! k
  = if decide (k ∈ key <$> l) then Some 0 else acc !! k.
Proof.
  revert acc. induction l as [|q l IH]; intros acc.
  - reflexivity.
  - cbn [foldl]. rewrite IH, fmap_cons.
    destruct (decide (k ∈ key <$> l)) as [Hl|Hl].
    + rewrite decide_True; [done|]. by apply list_elem_of_further.
    + destruct (decide (k = key q)) as [->|Hne].
      * rewrite decide_True by apply list_elem_of_here. apply lookup_insert_eq.
      * rewrite decide_False.
        -- by apply lookup_insert_ne.
        -- intros [?|?]%elem_of_cons; done.
Qed.

Lemma initialSymptoms_lookup (c : disease_config) (k : string) :
  initialSymptoms c !! k = if decide (k ∈ key <$> questions c) then Some 0 else None.
Proof. unfold initialSymptoms. by rewrite seed_lookup, lookup_empty. Qed.

(** Off the inherited names the property read is the lookup in the catalog. *)
Lemma diseaseConfigs_get_catalog (t : string) :
  t ∉ Object_prototype ->
  diseaseConfigs_get t =
    if decide (t = "diabetes") then Own diabetes
    else if decide (t = "heart_disease") then Own heart_disease
    else if decide (t = "thyroid") then Own thyroid
    else Missing.
Proof.
  intros Hno. unfold diseaseConfigs_get. rewrite diseaseConfigs_lookup.
  repeat case_decide; done.
Qed.

(** What the initialisation effect does for a disease type that is not the
    name of an inherited property: an unknown type is turned away to
    ["/predictions"] whatever the profile, an incomplete profile is sent to
    ["/profile"], and otherwise the answers are the question keys of the
    entry, each at 0, the other cells being left as they are. *)
Lemma initialize_off_prototype (t : string) (auth : AuthContext.session) (s : cells) :
  t ∉ Object_prototype ->
  (diseaseConfigs !! t = None ->
   initialize t auth s
   = Ok (s, [ToastError "Invalid disease type"; NavigateTo "/predictions"]))
  /\ (forall c, diseaseConfigs !! t = Some c ->
      truthy (AuthContext.isProfileComplete auth) = false ->
      initialize t auth s
      = Ok (s, [ToastError "Please complete your profile first"; NavigateTo "/profile"]))
  /\ (forall c, diseaseConfigs !! t = Some c ->
      truthy (AuthContext.isProfileComplete auth) = true ->
      exists s', initialize t auth s = Ok (s', [])
        /\ currentStep s' = currentStep s
        /\ forall k, symptoms s' !! k
                     = if decide (k ∈ key <$> questions c) then Some 0 else None).
Proof.
  intros Hno. unfold initialize, diseaseConfigs_get.
  rewrite (bool_decide_eq_false_2 _ Hno).
  split; [|split].
  - intros ->. reflexivity.
  - intros c -> ->. reflexivity.
  - intros c -> ->. simpl. eexists. split; [reflexivity|]. split; [reflexivity|].
    intros k. simpl. apply initialSymptoms_lookup.
Qed.

(** On mount the cells are the initial ones, so a successful initialisation
    leaves the component on its form. *)
Example initialize_diabetes_on_mount :
  initialize "diabetes" AuthContext.demo_session mounted = Ok (Demo.seeded, []).
Proof. by vm_compute. Qed.

(** C4, at the failing input. ["constructor"] is no entry of the catalog, but
    [diseaseConfigs["constructor"]] is the constructor every plain object
    inherits, so the effect does not take the unknown-type branch: with an
    incomplete profile it sends the user to ["/profile"], and with a complete
    one it reads [questions] of a function and throws. *)
Theorem initialize_inherited_name_not_rejected :
  diseaseConfigs !! "constructor" = None
  /\ diseaseConfigs_get "constructor" = Inherited "constructor"
  /\ (forall s : cells,
        initialize "constructor" AuthContext.initial s
        = Ok (s, [ToastError "Please complete your profile first"; NavigateTo "/profile"]))
  /\ (forall s : cells,
        initialize "constructor" AuthContext.demo_session s
        = Throw (TypeError "Cannot read properties of undefined (reading 'forEach')")).
Proof. repeat split; intros; by vm_compute. Qed.

(** *** Validation and submission *)

Lemma totalScore_all_zero (s : cells) :
  map_Forall (fun _ v => v = 0) (symptoms s) -> totalScore s = 0.
Proof.
  unfold totalScore.
  apply (map_fold_weak_ind
           (fun r (m : gmap string Z) => map_Forall (fun _ v => v = 0) m -> r = 0)).
  - done.
  - intros k v m r Hk IH Hall.
    apply map_Forall_insert in Hall as [-> Hall]; [|done].
    rewrite (IH Hall). done.
Qed.

Lemma handleSubmit_start_invalid (t : string) (auth : AuthContext.session) (s : cells) :
  totalScore s = 0 ->
  handleSubmit_start t auth s
  = (s, [ToastError "Please provide at least some symptom information"]).
Proof. intros H. unfold handleSubmit_start, validateForm. by rewrite H. Qed.

Lemma handleSubmit_start_valid (t : string) (auth : AuthContext.session) (s : cells) :
  totalScore s <> 0 ->
  handleSubmit_start t auth s
  = ({| currentStep := StepLoading; symptoms := symptoms s;
        prediction := prediction s; loading := true |},
     [GetPrediction t (symptoms s) (AuthContext.token auth)]).
Proof.
  intros H. unfold handleSubmit_start, validateForm.
  apply Z.eqb_neq in H. by rewrite H.
Qed.

(** [handleSubmit] is its first half followed, when the call was issued, by
    the settlement. *)
Lemma handleSubmit_split (t : string) (auth : AuthContext.session) (o : settlement) (s : cells) :
  handleSubmit t auth o s =
    let (s1, fx1) := handleSubmit_start t auth s in
    match requests fx1 with
    | [] => (s1, fx1)
    | _ :: _ => let (s2, fx2) := handleSubmit_settle o s1 in (s2, fx1 ++ fx2)
    end.
Proof.
  unfold handleSubmit, handleSubmit_start, validateForm.
  destruct (totalScore s =? 0); simpl; [done|].
  by destruct (handleSubmit_settle _ _).
Qed.

(** C5. On the form with every answer at zero, [handleSubmit] stops at the
    validation: it calls [getPrediction] not at all and leaves the cells,
    among them the step and the answers, as they were. *)
Theorem handleSubmit_all_zero_rejected
  (t : string) (auth : AuthContext.session) (o : settlement) (s : cells) :
  currentStep s = StepForm ->
  map_Forall (fun _ v => v = 0) (symptoms s) ->
  requests (handleSubmit t auth o s).2 = []
  /\ currentStep (handleSubmit t auth o s).1 = StepForm
  /\ symptoms (handleSubmit t auth o s).1 = symptoms s
  /\ (handleSubmit t auth o s).1 = s.
Proof.
  intros Hform Hzero. unfold handleSubmit, validateForm.
  rewrite (totalScore_all_zero s Hzero). simpl. done.
Qed.

Lemma seeded_all_zero : map_Forall (fun _ v => v = 0) (symptoms Demo.seeded).
Proof.
  intros k v. simpl. rewrite initialSymptoms_lookup.
  case_decide; [by intros [= <-] | done].
Qed.

Lemma handleSubmit_all_zero_rejected_witness :
  requests (handleSubmit "diabetes" AuthContext.demo_session (Rejected "") Demo.seeded).2 = []
  /\ currentStep (handleSubmit "diabetes" AuthContext.demo_session (Rejected "") Demo.seeded).1
     = StepForm
  /\ symptoms (handleSubmit "diabetes" AuthContext.demo_session (Rejected "") Demo.seeded).1
     = symptoms Demo.seeded
  /\ (handleSubmit "diabetes" AuthContext.demo_session (Rejected "") Demo.seeded).1
     = Demo.seeded.
Proof.
  apply (handleSubmit_all_zero_rejected "diabetes" AuthContext.demo_session (Rejected "")
           Demo.seeded).
  - reflexivity.
  - apply seeded_all_zero.
Defined.

(** The rejected call. When the call of [getPrediction] that [handleSubmit]
    issued is rejected, the component is back on its form with the answers it
    sent, the [loading] flag cleared, and one error toast shown for the
    attempt. *)
Theorem handleSubmit_rejected_back_to_form
  (t : string) (auth : AuthContext.session) (err : string) (s : cells) :
  (validateForm s).1 = true ->
  let r := handleSubmit t auth (Rejected err) s in
  requests r.2 = [GetPrediction t (symptoms s) (AuthContext.token auth)]
  /\ currentStep r.1 = StepForm
  /\ symptoms r.1 = symptoms s
  /\ loading r.1 = false
  /\ error_toasts r.2 = [ToastError "Failed to generate prediction. Please try again."].
Proof.
  intros Hvalid.
  assert (Hscore : totalScore s <> 0).
  { unfold validateForm in Hvalid. intros H0. by rewrite H0 in Hvalid. }
  apply Z.eqb_neq in Hscore.
  unfold handleSubmit, validateForm. rewrite Hscore. simpl. done.
Qed.

Lemma handleSubmit_rejected_back_to_form_witness :
  let r := handleSubmit "diabetes" AuthContext.demo_session (Rejected "Network Error")
             Demo.answered in
  requests r.2 = [Demo.request]
  /\ currentStep r.1 = StepForm
  /\ symptoms r.1 = symptoms Demo.answered
  /\ loading r.1 = false
  /\ error_toasts r.2 = [ToastError "Failed to generate prediction. Please try again."].
Proof.
  apply (handleSubmit_rejected_back_to_form "diabetes" AuthContext.demo_session
           "Network Error" Demo.answered).
  by vm_compute.
Defined.

(** A call that resolves with [success: false] raises nothing: no branch of
    [handleSubmit] handles it, and the step stays ['loading']. *)
Example handleSubmit_resolved_without_success :
  handleSubmit_settle (Resolved false None) Demo.submitting
  = ({| currentStep := StepLoading; symptoms := symptoms Demo.answered;
        prediction := None; loading := false |}, []).
Proof. reflexivity. Qed.


(** *** The events of the mounted component *)

Section Events.
Variable diseaseType : string.
Variable auth : AuthContext.session.

Lemma initialize_keeps_step (s s' : cells) (fx : list effect) :
  initialize diseaseType auth s = Ok (s', fx) ->
  currentStep s' = currentStep s /\ loading s' = loading s /\ requests fx = [].
Proof.
  unfold initialize.
  destruct (found (diseaseConfigs_get diseaseType)); simpl.
  - destruct (truthy (AuthContext.isProfileComplete auth)); simpl.
    + destruct (diseaseConfigs_get diseaseType); [|discriminate..].
      by intros [= <- <-].
    + by intros [= <- <-].
  - by intros [= <- <-].
Qed.

Lemma handleSubmit_start_cases (s s' : cells) (fx : list effect) :
  handleSubmit_start diseaseType auth s = (s', fx) ->
  symptoms s' = symptoms s
  /\ ((s' = s /\ requests fx = [])
      \/ (currentStep s' = StepLoading /\ loading s' = true
          /\ exists call, requests fx = [call])).
Proof.
  destruct (decide (totalScore s = 0)) as [H0|Hn].
  - rewrite (handleSubmit_start_invalid _ _ _ H0). intros [= <- <-]. by split; [|left].
  - rewrite (handleSubmit_start_valid _ _ _ Hn). intros [= <- <-].
    split; [done|]. right. repeat split. by eexists.
Qed.

Lemma handleSubmit_settle_symptoms (o : settlement) (s s' : cells) (fx : list effect) :
  handleSubmit_settle o s = (s', fx) -> symptoms s' = symptoms s.
Proof.
  unfold handleSubmit_settle. destruct o as [[|] data|err]; by intros [= <- <-].
Qed.

Lemma handleBack_cases (s s' : cells) (fx : list effect) :
  handleBack s = (s', fx) ->
  symptoms s' = symptoms s /\ requests fx = []
  /\ (currentStep s = StepLoading -> s' = s).
Proof.
  unfold handleBack. destruct (currentStep s) eqn:Hstep; intros [= <- <-]; done.
Qed.

Lemma submit_enabled_form (s : cells) :
  submit_enabled diseaseType s = true -> currentStep s = StepForm /\ loading s = false.
Proof.
  unfold submit_enabled, form_rendered.
  destruct (currentDisease diseaseType); [|discriminate..].
  destruct (currentStep s); [|discriminate..].
  intros H%negb_true_iff. done.
Qed.

Lemma exclusive_event (r r' : runtime) :
  exclusive r -> event diseaseType auth r r' -> exclusive r'.
Proof.
  unfold exclusive. intros Hex Hev.
  destruct Hev as [r s' fx Hinit|r c q v Hform _ _|r s' fx Hen Hstart
                  |r call rest o s' fx Hpend Hsettle|r s' fx Hback]; simpl.
  - apply initialize_keeps_step in Hinit as (-> & -> & _). exact Hex.
  - exact Hex.
  - apply submit_enabled_form in Hen as [Hstep Hload].
    destruct Hex as [->|(_ & Hstep' & _)]; [|congruence].
    apply handleSubmit_start_cases in Hstart as [_ [[-> ->]|(-> & -> & call & ->)]].
    + by left.
    + right. split; [by exists call | done].
  - left. destruct Hex as [Hnil|[[call' Hone] _]]; congruence.
  - apply handleBack_cases in Hback as (_ & _ & Hsame).
    destruct Hex as [Hnil|(Hone & Hstep & Hload)]; [by left|].
    right. rewrite (Hsame Hstep). done.
Qed.

Lemma reachable_exclusive (r : runtime) : reachable_runtime diseaseType auth r -> exclusive r.
Proof.
  induction 1 as [|r r' _ IH Hev]; [by left | by eapply exclusive_event].
Qed.

(** C7, as the code has it. [handleSubmit] checks no step and raises no
    error of its own; the exclusion is in what is rendered: the form is
    shown on the ['form'] step only and its button is disabled while
    [loading]. So in every state the events of the mounted component lead
    to, at most one call of [getPrediction] is pending, and while one is
    pending the form is not rendered and no submission can be raised. *)
Theorem at_most_one_call_pending (r : runtime) :
  reachable_runtime diseaseType auth r ->
  (length (pending r) <= 1)%nat
  /\ (pending r <> [] ->
      form_rendered diseaseType (state r) = None
      /\ submit_enabled diseaseType (state r) = false).
Proof.
  intros Hr. apply reachable_exclusive in Hr as [Hnil|([call Hone] & Hstep & Hload)].
  - rewrite Hnil. split; [simpl; lia | done].
  - rewrite Hone. split; [simpl; lia|]. intros _.
    unfold submit_enabled, form_rendered. rewrite Hstep.
    by destruct (currentDisease diseaseType).
Qed.

Lemma answers_bounded_event (r r' : runtime) :
  answers_bounded diseaseType (state r) ->
  event diseaseType auth r r' -> answers_bounded diseaseType (state r').
Proof.
  unfold answers_bounded. intros Hb Hev.
  destruct Hev as [r s' fx Hinit|r c q v Hform Hq Hv|r s' fx Hen Hstart
                  |r call rest o s' fx Hpend Hsettle|r s' fx Hback]; simpl.
  - revert Hinit. unfold initialize, currentDisease in *.
    destruct (diseaseConfigs_get diseaseType) as [c|n|] eqn:Hget; simpl.
    + destruct (truthy (AuthContext.isProfileComplete auth)); simpl;
        intros [= <- <-]; [|exact Hb].
      intros k v. simpl. rewrite initialSymptoms_lookup.
      case_decide as Hin; [|done]. intros [= <-]. split; [lia|].
      apply list_elem_of_fmap in Hin as (q & -> & Hq). by exists c, q.
    + destruct (truthy (AuthContext.isProfileComplete auth)); simpl;
        [discriminate | by intros [= <- <-]].
    + by intros [= <- <-].
  - intros k w. destruct (decide (key q = k)) as [<-|Hne].
    + rewrite lookup_insert_eq. intros [= <-]. split; [done|].
      exists c, q. split; [|done]. revert Hform. unfold form_rendered.
      destruct (currentDisease diseaseType); [|discriminate..].
      destruct (currentStep (state r)); [|discriminate..]. by intros [= ->].
    + rewrite lookup_insert_ne by done. apply Hb.
  - apply handleSubmit_start_cases in Hstart as [-> _]. exact Hb.
  - apply handleSubmit_settle_symptoms in Hsettle as ->. exact Hb.
  - apply handleBack_cases in Hback as (-> & _). exact Hb.
Qed.

(** C10, as the code has it. [handleSymptomChange] stores the value under
    the key without looking at either; the bounds are those of the range
    input of the slider and the keys those of the sliders rendered, one per
    question. So in every state the events of the mounted component lead
    to, every stored answer lies between 0 and 100 and belongs to a question
    of the catalog entry of the disease type. *)
Theorem answers_in_range (r : runtime) (k : string) (v : Z) :
  reachable_runtime diseaseType auth r ->
  symptoms (state r) !! k = Some v ->
  0 <= v <= 100
  /\ exists c q, currentDisease diseaseType = Own c /\ q ∈ questions c /\ key q = k.
Proof.
  intros Hr. revert k v. change (answers_bounded diseaseType (state r)).
  induction Hr as [|r r' _ IH Hev].
  - intros k v. simpl. by rewrite lookup_empty.
  - by eapply answers_bounded_event.
Qed.

End Events.

(** The demo run, event by event: the effect seeds the answers, one slider
    is moved, the form is submitted. *)
Lemma in_flight_reachable :
  reachable_runtime "diabetes" AuthContext.demo_session Demo.in_flight.
Proof.
  apply (reachable_event _ _ {| state := Demo.answered; pending := []; log := [] |}).
  - apply (reachable_event _ _ {| state := Demo.seeded; pending := []; log := [] |}).
    + apply (reachable_event _ _ started); [apply reachable_started|].
      apply (ev_effect "diabetes" AuthContext.demo_session started Demo.seeded []).
      by vm_compute.
    + apply (ev_slider "diabetes" AuthContext.demo_session
               {| state := Demo.seeded; pending := []; log := [] |}
               diabetes (Question "fatigue" "Fatigue Levels"
                           "How tired or fatigued do you feel regularly?" "%") 40).
      * by vm_compute.
      * simpl. repeat (first [apply list_elem_of_here | apply list_elem_of_further]).
      * lia.
  - apply (ev_submit "diabetes" AuthContext.demo_session
             {| state := Demo.answered; pending := []; log := [] |}
             Demo.submitting [Demo.request]).
    + by vm_compute.
    + by vm_compute.
Qed.

Lemma at_most_one_call_pending_witness :
  (length (pending Demo.in_flight) <= 1)%nat
  /\ (pending Demo.in_flight <> [] ->
      form_rendered "diabetes" (state Demo.in_flight) = None
      /\ submit_enabled "diabetes" (state Demo.in_flight) = false).
Proof.
  apply (at_most_one_call_pending "diabetes" AuthContext.demo_session Demo.in_flight).
  apply in_flight_reachable.
Defined.

(** C7, as stated, fails: called on the loading step, [handleSubmit] passes
    the validation and calls [getPrediction] again; it has no failure of its
    own to report. *)
Lemma handleSubmit_on_loading_step_calls_again :
  currentStep Demo.submitting = StepLoading
  /\ handleSubmit_start "diabetes" AuthContext.demo_session Demo.submitting
     = (Demo.submitting, [Demo.request])
  /\ requests (handleSubmit_start "diabetes" AuthContext.demo_session Demo.submitting).2
     = [Demo.request].
Proof. repeat split; by vm_compute. Qed.

Lemma answers_in_range_witness :
  symptoms (state Demo.in_flight) !! "fatigue" = Some 40
  /\ 0 <= 40 <= 100
  /\ exists c q, currentDisease "diabetes" = Own c /\ q ∈ questions c /\ key q = "fatigue".
Proof.
  split; [by vm_compute|].
  apply (answers_in_range "diabetes" AuthContext.demo_session Demo.in_flight "fatigue" 40).
  - apply in_flight_reachable.
  - by vm_compute.
Defined.

(** C10, as stated, fails: [handleSymptomChange] given 150 stores 150, which
    is neither the answer that was there nor the upper bound; and it stores
    under a key that is no question as well. *)
Lemma handleSymptomChange_stores_out_of_range :
  symptoms Demo.seeded !! "frequent_urination" = Some 0
  /\ symptoms (handleSymptomChange "frequent_urination" 150 Demo.seeded)
       !! "frequent_urination" = Some 150
  /\ symptoms (handleSymptomChange "no_such_question" 7 Demo.seeded)
       !! "no_such_question" = Some 7.
Proof. repeat split; by vm_compute. Qed.

(** *** Risk tiers *)

(** C8. For every percentage (so for every one from 0 to 100) the heading of
    the result card names the tier of the threshold table, the badge of the
    history table is coloured for the same tier, and the two screens use the
    same colour classes. *)
Theorem risk_tiers_agree (p : Z) :
  exists t : Tier.tier,
    Tier.tier_at p t
    /\ (forall t', Tier.tier_at p t' -> t' = t)
    /\ Tier.of_level (level (getRiskLevel p)) = Some t
    /\ Tier.of_classes (Profile.getRiskColor p) = Some t
    /\ Profile.getRiskColor p
       = level_color (getRiskLevel p) +:+ " " +:+ bgColor (getRiskLevel p).
Proof.
  unfold getRiskLevel, Profile.getRiskColor.
  destruct (p <? 25) eqn:H25; [|destruct (p <? 50) eqn:H50; [|destruct (p <? 75) eqn:H75]];
    rewrite ?Z.ltb_lt, ?Z.ltb_ge in *.
  - exists Tier.Low. repeat split; try reflexivity; simpl; try lia.
    intros []; simpl; intros; (reflexivity || lia).
  - exists Tier.Moderate. repeat split; try reflexivity; simpl; try lia.
    intros []; simpl; intros; (reflexivity || lia).
  - exists Tier.High. repeat split; try reflexivity; simpl; try lia.
    intros []; simpl; intros; (reflexivity || lia).
  - exists Tier.VeryHigh. repeat split; try reflexivity; simpl; try lia.
    intros []; simpl; intros; (reflexivity || lia).
Qed.

(** The boundaries of the table on both screens. *)
Example risk_boundaries :
  map (fun p => (level (getRiskLevel p), Profile.getRiskColor p)) [0; 24; 25; 49; 50; 74; 75; 100]
  = [ ("Low", "text-green-600 bg-green-100"); ("Low", "text-green-600 bg-green-100");
      ("Moderate", "text-yellow-600 bg-yellow-100");
      ("Moderate", "text-yellow-600 bg-yellow-100");
      ("High", "text-orange-600 bg-orange-100"); ("High", "text-orange-600 bg-orange-100");
      ("Very High", "text-red-600 bg-red-100"); ("Very High", "text-red-600 bg-red-100") ].
Proof. reflexivity. Qed.

End PredictionFormFacts.

(** ** The session store and its callers *)

Module SessionFlowFacts.
Import JS AuthContext ProtectedRoute.

(** X1. [logout] is idempotent and absorbs a [login] before it; a [login]
    overwrites whatever session was there, so the last [login] wins and a
    [logout] before it leaves no trace. *)
Theorem logout_login_compose (s : session) (u1 u2 : account) (t1 t2 : string) :
  logout (logout s) = logout s
  /\ logout (login u1 t1 s) = logout s
  /\ login u2 t2 (login u1 t1 s) = login u2 t2 s
  /\ login u1 t1 (logout s) = login u1 t1 s.
Proof. by repeat split. Qed.

Lemma step_keeps_loaded (s s' : session) :
  step s s' -> loading s = false -> loading s' = false.
Proof.
  intros [s0|s0 u t|s0|s0 p s1 Hupd]; simpl; try done.
  unfold updateUserProfile in Hupd. destruct (updateUser p (user s0)); [|discriminate].
  by injection Hupd as <-.
Qed.

(** X2. Once the start-up check has cleared [loading], no run of the store
    (mount effect, [login], [logout], profile updates) sets it again. *)
Theorem loading_stays_cleared (s s' : session) :
  rtc step s s' -> loading s = false -> loading s' = false.
Proof.
  induction 1 as [|s1 s2 s3 Hstep _ IH]; [done|].
  intros Hl. apply IH. by eapply step_keeps_loaded.
Qed.

Lemma loading_stays_cleared_witness : loading demo_session = false.
Proof.
  apply (loading_stays_cleared (checkExistingSession initial) demo_session).
  - eapply rtc_l; [apply step_login | apply rtc_refl].
  - reflexivity.
Defined.

(** X3. Two profile updates in a row are one update with the two partial
    profiles merged, the later one winning; without an account both throw the
    same error. *)
Theorem updateUserProfile_twice (p q : object) (s : session) :
  then_update (updateUserProfile p s) q = updateUserProfile (spread2 p q) s.
Proof.
  unfold then_update, updateUserProfile, updateUser.
  destruct (user s) as [u|]; simpl; [|done].
  unfold spread2. by rewrite (assoc_L (∪)).
Qed.

(** X4. With an account present, an update that carries nonzero numbers for
    [age], [weight] and [height] makes [isProfileComplete()] hold, whatever
    the profile was before (absent, partial, or holding zeros). *)
Theorem updateUserProfile_completes (p : object) (s : session) (u : account) :
  user s = Some u ->
  present_nonzero (p !! "age") ->
  present_nonzero (p !! "weight") ->
  present_nonzero (p !! "height") ->
  exists s', updateUserProfile p s = Ok s' /\ truthy (isProfileComplete s') = true.
Proof.
  intros Hu (a & Ha & Hna) (w & Hw & Hnw) (h & Hh & Hnh).
  unfold updateUserProfile, updateUser. rewrite Hu. eexists. split; [reflexivity|].
  unfold isProfileComplete, spread2, get; simpl.
  rewrite !(lookup_union_l' p) by (by eexists).
  rewrite Ha, Hw, Hh. apply Z.eqb_neq in Hna, Hnw, Hnh.
  unfold and; cbn. rewrite Hna; cbn. rewrite Hnw; cbn. by rewrite Hnh.
Qed.

Lemma updateUserProfile_completes_witness :
  exists s',
    updateUserProfile demo_profile
      (login {| id := VStr "u"; email := VStr "e"; profile := None |} "t" initial)
    = Ok s'
    /\ truthy (isProfileComplete s') = true.
Proof.
  apply (updateUserProfile_completes demo_profile
           (login {| id := VStr "u"; email := VStr "e"; profile := None |} "t" initial)
           {| id := VStr "u"; email := VStr "e"; profile := None |}).
  - reflexivity.
  - exists 28. by vm_compute.
  - exists 70. by vm_compute.
  - exists 175. by vm_compute.
Defined.

(** X5. With an account present the update returns, and it is a shallow merge
    into the profile only: a key of the partial profile reads as given, every
    other key as before, and [id], [email], the token and the two flags are
    untouched. *)
Theorem updateUserProfile_merges (p : object) (s : session) (u : account) :
  user s = Some u ->
  exists s' u' q,
    updateUserProfile p s = Ok s' /\ user s' = Some u' /\ profile u' = Some q
    /\ id u' = id u /\ email u' = email u
    /\ token s' = token s /\ isAuthenticated s' = isAuthenticated s
    /\ loading s' = loading s
    /\ (forall k v, p !! k = Some v -> q !! k = Some v)
    /\ (forall k, p !! k = None -> q !! k = default ∅ (profile u) !! k).
Proof.
  intros Hu. unfold updateUserProfile, updateUser. rewrite Hu.
  eexists _, _, _. repeat split.
  - intros k v Hk. unfold spread2. apply lookup_union_Some_l. exact Hk.
  - intros k Hk. unfold spread2. by apply lookup_union_r.
Qed.

Lemma updateUserProfile_merges_witness :
  exists s' u' q,
    updateUserProfile {[ "age" := VNum 30 ]} demo_session = Ok s'
    /\ user s' = Some u' /\ profile u' = Some q
    /\ id u' = id demo_user /\ email u' = email demo_user
    /\ token s' = token demo_session
    /\ isAuthenticated s' = isAuthenticated demo_session
    /\ loading s' = loading demo_session
    /\ (forall k v, ({[ "age" := VNum 30 ]} : object) !! k = Some v -> q !! k = Some v)
    /\ (forall k, ({[ "age" := VNum 30 ]} : object) !! k = None ->
        q !! k = default ∅ (profile demo_user) !! k).
Proof.
  apply (updateUserProfile_merges {[ "age" := VNum 30 ]} demo_session demo_user).
  reflexivity.
Defined.

(** X6. Once [loading] is cleared, the guard sends every path to ["/login"]
    after the Navbar's [handleLogout], remembering the path, and renders its
    children after a [login]; [handleLogout] itself leaves the session
    anonymous. *)
Theorem guard_follows_login_and_logout
  {A : Type} (children : A) (s : session) (menu : bool) (pathname : string)
  (u : account) (t : string) :
  loading s = false ->
  ProtectedRoute children (Navbar.handleLogout s menu).1.1 pathname
  = Navigate "/login" pathname true
  /\ ProtectedRoute children (login u t s) pathname = Children children
  /\ isAuthenticated (Navbar.handleLogout s menu).1.1 = false
  /\ user (Navbar.handleLogout s menu).1.1 = None
  /\ token (Navbar.handleLogout s menu).1.1 = None.
Proof.
  intros Hl. unfold ProtectedRoute, Navbar.handleLogout; simpl. by rewrite Hl.
Qed.

Lemma guard_follows_login_and_logout_witness :
  ProtectedRoute tt (Navbar.handleLogout demo_session true).1.1 "/profile"
  = Navigate "/login" "/profile" true
  /\ ProtectedRoute tt (login demo_user "t" demo_session) "/profile" = Children tt
  /\ isAuthenticated (Navbar.handleLogout demo_session true).1.1 = false
  /\ user (Navbar.handleLogout demo_session true).1.1 = None
  /\ token (Navbar.handleLogout demo_session true).1.1 = None.
Proof.
  apply (guard_follows_login_and_logout tt demo_session true "/profile" demo_user "t").
  reflexivity.
Defined.

(** X7. The path the guard puts into its redirect is the path the login page
    returns to: for every nonempty requested path, [from] of the state the
    guard built is that path; with no state, or an empty [from], the login
    page goes to ["/dashboard"]. *)
Theorem login_returns_to_requested_path
  {A : Type} (children : A) (s : session) (pathname to f : string) (replace : bool) :
  ProtectedRoute children s pathname = Navigate to f replace ->
  pathname <> "" ->
  to = "/login" /\ Login.from (Some f) = pathname
  /\ Login.from None = "/dashboard" /\ Login.from (Some "") = "/dashboard".
Proof.
  unfold ProtectedRoute. intros Hnav Hne.
  destruct (loading s); [discriminate|].
  destruct (isAuthenticated s); simpl in Hnav; [discriminate|].
  injection Hnav as <- <- <-. repeat split.
  unfold Login.from. destruct (String.eqb pathname "") eqn:He; [|done].
  by apply String.eqb_eq in He.
Qed.

Lemma login_returns_to_requested_path_witness :
  "/login" = "/login" /\ Login.from (Some "/predictions") = "/predictions"
  /\ Login.from None = "/dashboard" /\ Login.from (Some "") = "/dashboard".
Proof.
  apply (login_returns_to_requested_path tt (checkExistingSession initial)
           "/predictions" "/login" "/predictions" true).
  - reflexivity.
  - discriminate.
Defined.

End SessionFlowFacts.

(** ** The assessment workflow beyond the claims *)

Module WorkflowFacts.
Import JS PredictionForm PredictionFormFacts.

(** *** Submission *)



(** X9. Going back from the results returns to the form as it was submitted:
    the same answers, the prediction dropped, nothing navigated; on any other
    step going back leaves the cells alone and navigates to
    ["/predictions"]. *)
Theorem handleBack_returns_to_submitted_form
  (t : string) (auth : AuthContext.session) (data : option prediction_data) (s : cells) :
  (validateForm s).1 = true ->
  handleBack (handleSubmit t auth (Resolved true data) s).1
  = ({| currentStep := StepForm; symptoms := symptoms s;
        prediction := None; loading := false |}, [])
  /\ forall s0, currentStep s0 <> StepResults ->
       handleBack s0 = (s0, [NavigateTo "/predictions"]).
Proof.
  intros Hvalid. split.
  - unfold handleSubmit. destruct (validateForm s) as [valid fx] eqn:Hv.
    simpl in Hvalid. subst valid. reflexivity.
  - intros s0 Hne. unfold handleBack. by destruct (currentStep s0).
Qed.

Lemma handleBack_returns_to_submitted_form_witness :
  handleBack (handleSubmit "diabetes" AuthContext.demo_session (Resolved true None)
                Demo.answered).1
  = ({| currentStep := StepForm; symptoms := symptoms Demo.answered;
        prediction := None; loading := false |}, [])
  /\ forall s0, currentStep s0 <> StepResults ->
       handleBack s0 = (s0, [NavigateTo "/predictions"]).
Proof.
  apply (handleBack_returns_to_submitted_form "diabetes" AuthContext.demo_session None
           Demo.answered).
  by vm_compute.
Defined.

(** *** Validation and the progress indicator *)

Lemma sum_of_nonnegative (m : gmap string Z) :
  map_Forall (fun _ v => 0 <= v) m ->
  0 <= map_fold (fun _ v sum => sum + v) 0 m
  /\ (map_fold (fun _ v sum => sum + v) 0 m = 0 -> map_Forall (fun _ v => v = 0) m).
Proof.
  apply (map_fold_weak_ind
           (fun r (m : gmap string Z) =>
              map_Forall (fun _ v => 0 <= v) m ->
              0 <= r /\ (r = 0 -> map_Forall (fun _ v => v = 0) m))).
  - intros _. split; [lia|]. intros _. apply map_Forall_empty.
  - intros k v m0 r Hk IH Hall.
    apply map_Forall_insert in Hall as [Hv Hall]; [|done].
    destruct (IH Hall) as [Hr Hz]. split; [lia|].
    intros Hsum. apply map_Forall_insert; [done|]. split; [lia|]. apply Hz. lia.
Qed.

Lemma answeredCount_positive (s : cells) :
  (0 < answeredCount s)%nat <-> exists k v, symptoms s !! k = Some v /\ 0 < v.
Proof.
  unfold answeredCount.
  destruct (List.filter _ _) as [|[k v] l] eqn:Hf; simpl.
  - split; [lia|]. intros (k & v & Hk & Hv).
    assert (Hin : In (k, v) (List.filter (fun kv : string * Z => 0 <? kv.2)
                               (map_to_list (symptoms s)))).
    { apply filter_In. split.
      - apply list_elem_of_In. by apply elem_of_map_to_list.
      - simpl. by apply Z.ltb_lt. }
    rewrite Hf in Hin. destruct Hin.
  - split; [|lia]. intros _.
    assert (Hin : In (k, v) (List.filter (fun kv : string * Z => 0 <? kv.2)
                               (map_to_list (symptoms s)))).
    { rewrite Hf. by left. }
    apply filter_In in Hin as [Hin Hpos]. simpl in Hpos.
    exists k, v. split.
    + apply elem_of_map_to_list. by apply list_elem_of_In.
    + by apply Z.ltb_lt.
Qed.

Lemma validateForm_iff_nonzero (s : cells) :
  map_Forall (fun _ v => 0 <= v) (symptoms s) ->
  (validateForm s).1 = true <-> exists k v, symptoms s !! k = Some v /\ v <> 0.
Proof.
  intros Hnn. unfold validateForm. split.
  - destruct (totalScore s =? 0) eqn:Hs; [discriminate|]. intros _.
    apply Z.eqb_neq in Hs.
    destruct (decide (map_Forall (fun _ v => v = 0) (symptoms s))) as [Hz|Hnz].
    + by apply PredictionFormFacts.totalScore_all_zero in Hz.
    + apply map_not_Forall in Hnz; [|apply _].
      destruct Hnz as (k & v & Hk & Hv). by exists k, v.
  - intros (k & v & Hk & Hv).
    destruct (totalScore s =? 0) eqn:Hs; [|done].
    apply Z.eqb_eq in Hs. apply (sum_of_nonnegative _ Hnn) in Hs.
    by specialize (Hs k v Hk).
Qed.

(** X10. On answers that are not negative (as every slider value is), the
    validation passes exactly when some answer is not zero, which is exactly
    when the progress indicator counts at least one answered question. *)
Theorem validateForm_iff_answered (s : cells) :
  map_Forall (fun _ v => 0 <= v) (symptoms s) ->
  ((validateForm s).1 = true <-> exists k v, symptoms s !! k = Some v /\ v <> 0)
  /\ ((validateForm s).1 = true <-> (0 < answeredCount s)%nat).
Proof.
  intros Hnn. pose proof (validateForm_iff_nonzero s Hnn) as H1.
  split; [exact H1|]. rewrite H1, answeredCount_positive.
  split; intros (k & v & Hk & Hv); exists k, v; split; try done.
  - specialize (Hnn k v Hk). simpl in Hnn. lia.
  - lia.
Qed.

Lemma validateForm_iff_answered_witness :
  ((validateForm Demo.answered).1 = true
   <-> exists k v, symptoms Demo.answered !! k = Some v /\ v <> 0)
  /\ ((validateForm Demo.answered).1 = true <-> (0 < answeredCount Demo.answered)%nat).
Proof.
  apply (validateForm_iff_answered Demo.answered).
  intros k v. unfold Demo.answered, handleSymptomChange; simpl.
  destruct (decide ("fatigue" = k)) as [<-|Hne].
  - rewrite lookup_insert_eq. intros [= <-]. lia.
  - rewrite lookup_insert_ne by done. rewrite initialSymptoms_lookup.
    case_decide; [intros [= <-]; lia | done].
Defined.

(** *** What the events of the mounted component keep *)

Section Reachable.
Variable diseaseType : string.
Variable auth : AuthContext.session.

Lemma reachable_answers_bounded (r : runtime) :
  reachable_runtime diseaseType auth r -> answers_bounded diseaseType (state r).
Proof.
  induction 1 as [|r r' _ IH Hev].
  - intros k v. simpl. by rewrite lookup_empty.
  - by eapply answers_bounded_event.
Qed.

(** X11. In every state the events lead to, the progress indicator never
    counts more answered questions than the catalog entry has questions (and
    counts none when the disease type has no entry). *)
Theorem answeredCount_at_most_questions (r : runtime) :
  reachable_runtime diseaseType auth r ->
  (answeredCount (state r)
   <= match currentDisease diseaseType with
      | Own c => length (questions c)
      | _ => 0
      end)%nat.
Proof.
  intros Hr. apply reachable_answers_bounded in Hr.
  unfold answeredCount.
  etransitivity; [apply filter_length_le|].
  destruct (map_to_list (symptoms (state r))) as [|[k v] l] eqn:Hl.
  { simpl. lia. }
  assert (Hkv : symptoms (state r) !! k = Some v).
  { apply elem_of_map_to_list. rewrite Hl. apply list_elem_of_here. }
  destruct (Hr k v Hkv) as (_ & c & q & Hc & _). rewrite Hc, <- Hl.
  rewrite <- (length_fmap fst (map_to_list _)), <- (length_fmap key (questions c)).
  apply submseteq_length, NoDup_submseteq; [apply NoDup_fst_map_to_list|].
  intros k' Hk'. apply list_elem_of_fmap in Hk' as ([k'' v'] & -> & Hin).
  apply elem_of_map_to_list in Hin. destruct (Hr k'' v' Hin) as (_ & c' & q' & Hc' & Hq' & <-).
  rewrite Hc in Hc'. injection Hc' as <-. by apply (list_elem_of_fmap_2 key).
Qed.

Lemma request_well_formed_no_request (fx : list effect) :
  requests fx = [] -> Forall (request_well_formed diseaseType auth) fx.
Proof.
  unfold requests. induction fx as [|e fx IH]; simpl; [constructor|].
  destruct e; simpl; try discriminate; intros H; constructor; auto; exact I.
Qed.

Lemma handleSubmit_settle_no_request (o : settlement) (s : cells) :
  requests (handleSubmit_settle o s).2 = [].
Proof. by destruct o as [[|] d|e]. Qed.

(** X12. Every call of [getPrediction] the component makes carries the
    disease type of the route, the token of the session, and answers that lie
    within the slider bounds and are not all zero. *)
Theorem logged_requests_well_formed (r : runtime) :
  reachable_runtime diseaseType auth r ->
  Forall (request_well_formed diseaseType auth) (log r).
Proof.
  intros Hr. induction Hr as [|r r' Hr IH Hev]; [constructor|].
  apply reachable_answers_bounded in Hr.
  destruct Hev as [r s' fx Hinit|r c q v Hform _ _|r s' fx Hen Hstart
                  |r call rest o s' fx Hpend Hsettle|r s' fx Hback]; simpl.
  - apply Forall_app. split; [exact IH|].
    apply request_well_formed_no_request.
    by apply initialize_keeps_step in Hinit as (_ & _ & ?).
  - exact IH.
  - apply Forall_app. split; [exact IH|].
    destruct (decide (totalScore (state r) = 0)) as [H0|Hn].
    + rewrite (handleSubmit_start_invalid _ _ _ H0) in Hstart.
      injection Hstart as <- <-. by apply request_well_formed_no_request.
    + rewrite (handleSubmit_start_valid _ _ _ Hn) in Hstart.
      injection Hstart as <- <-. constructor; [|constructor].
      simpl. split; [done|]. split; [done|]. split; [exact Hn|].
      intros k v Hk. by destruct (Hr k v Hk).
  - apply Forall_app. split; [exact IH|].
    apply request_well_formed_no_request.
    pose proof (handleSubmit_settle_no_request o (state r)) as Hno.
    by rewrite Hsettle in Hno.
  - apply Forall_app. split; [exact IH|].
    apply request_well_formed_no_request.
    by apply handleBack_cases in Hback as (_ & ? & _).
Qed.

Lemma event_keeps_idle_loading (r r' : runtime) :
  event diseaseType auth r r' ->
  currentStep (state r) = StepLoading -> pending r = [] ->
  currentStep (state r') = StepLoading /\ pending r' = []
  /\ requests (log r') = requests (log r).
Proof.
  intros Hev Hstep Hpend.
  assert (Happ : forall fx, requests fx = [] -> requests (log r ++ fx) = requests (log r)).
  { intros fx Hfx. unfold requests in *. by rewrite List.filter_app, Hfx, app_nil_r. }
  destruct Hev as [r s' fx Hinit|r c q v Hform _ _|r s' fx Hen Hstart
                  |r call rest o s' fx Hp Hsettle|r s' fx Hback]; simpl.
  - apply initialize_keeps_step in Hinit as (-> & _ & Hfx). auto.
  - unfold form_rendered in Hform. rewrite Hstep in Hform.
    by destruct (currentDisease diseaseType).
  - apply submit_enabled_form in Hen as [Hf _]. congruence.
  - congruence.
  - apply handleBack_cases in Hback as (_ & Hfx & Hsame).
    rewrite (Hsame Hstep). auto.
Qed.

(** X13. A call that resolves without [success] leaves the component on the
    loading step with nothing pending, and from such a state no event of the
    component leads anywhere else: the step stays ['loading'], nothing
    becomes pending and no further call is made. *)
Theorem idle_loading_is_final (data : option prediction_data) (s : cells) (r r' : runtime) :
  currentStep s = StepLoading ->
  state r = (handleSubmit_settle (Resolved false data) s).1 ->
  pending r = [] ->
  rtc (event diseaseType auth) r r' ->
  currentStep (state r') = StepLoading /\ pending r' = []
  /\ requests (log r') = requests (log r).
Proof.
  intros Hs Hr Hp Hrun.
  assert (Hstep : currentStep (state r) = StepLoading) by (by rewrite Hr).
  clear Hr Hs. induction Hrun as [r|r r1 r2 Hev _ IH]; [done|].
  destruct (event_keeps_idle_loading _ _ Hev Hstep Hp) as (Hstep1 & Hp1 & Hlog1).
  destruct (IH Hp1 Hstep1) as (? & ? & Hlog2). repeat split; try done. congruence.
Qed.

End Reachable.

Lemma answeredCount_at_most_questions_witness :
  (answeredCount (state Demo.in_flight)
   <= match currentDisease "diabetes" with
      | Own c => length (questions c)
      | _ => 0
      end)%nat.
Proof.
  apply (answeredCount_at_most_questions "diabetes" AuthContext.demo_session Demo.in_flight).
  apply in_flight_reachable.
Defined.

Lemma logged_requests_well_formed_witness :
  Forall (request_well_formed "diabetes" AuthContext.demo_session) (log Demo.in_flight).
Proof.
  apply (logged_requests_well_formed "diabetes" AuthContext.demo_session Demo.in_flight).
  apply in_flight_reachable.
Defined.

Lemma idle_loading_is_final_witness :
  let r := {| state := (handleSubmit_settle (Resolved false None) Demo.submitting).1;
              pending := []; log := [Demo.request] |} in
  let r' := {| state := (handleSubmit_settle (Resolved false None) Demo.submitting).1;
               pending := []; log := [Demo.request; NavigateTo "/predictions"] |} in
  currentStep (state r') = StepLoading /\ pending r' = []
  /\ requests (log r') = requests (log r).
Proof.
  apply (idle_loading_is_final "diabetes" AuthContext.demo_session None Demo.submitting).
  - reflexivity.
  - reflexivity.
  - reflexivity.
  - eapply rtc_l; [|apply rtc_refl].
    apply (ev_back "diabetes" AuthContext.demo_session
             {| state := (handleSubmit_settle (Resolved false None) Demo.submitting).1;
                pending := []; log := [Demo.request] |}
             (handleSubmit_settle (Resolved false None) Demo.submitting).1
             [NavigateTo "/predictions"]).
    reflexivity.
Defined.

(** *** The cards of the predictions page and the form they lead to *)

(** X14. The gate at a card and the gate of the form agree: for each of the
    three cards, with a complete profile the click navigates to the route of
    the card's id and the form mounted for that id is seeded (all of its
    question keys at 0, on the form step, nothing shown or navigated); with an
    incomplete profile the click and the form both go to ["/profile"]. *)
Theorem card_and_form_gates_agree (auth : AuthContext.session) (diseaseId : string) :
  diseaseId ∈ Predictions.diseaseCards ->
  if truthy (AuthContext.isProfileComplete auth) then
    Predictions.handlePredictionClick auth diseaseId
    = [NavigateTo ("/predict/" +:+ diseaseId)]
    /\ exists c s',
         diseaseConfigs !! diseaseId = Some c
         /\ initialize diseaseId auth mounted = Ok (s', [])
         /\ currentStep s' = StepForm
         /\ forall k, symptoms s' !! k
                      = if decide (k ∈ key <$> questions c) then Some 0 else None
  else
    Predictions.handlePredictionClick auth diseaseId
    = [ToastError "Please complete your profile before making predictions.";
       NavigateTo "/profile"]
    /\ initialize diseaseId auth mounted
       = Ok (mounted, [ToastError "Please complete your profile first";
                       NavigateTo "/profile"]).
Proof.
  intros Hin. unfold Predictions.handlePredictionClick.
  assert (Hcat : exists c, diseaseConfigs !! diseaseId = Some c
                           /\ diseaseConfigs_get diseaseId = Own c).
  { unfold Predictions.diseaseCards in Hin.
    repeat (apply elem_of_cons in Hin as [->|Hin]); [..|by apply elem_of_nil in Hin];
      eexists; split; by vm_compute. }
  destruct Hcat as (c & Hc & Hget).
  unfold initialize. rewrite Hget. simpl.
  destruct (truthy (AuthContext.isProfileComplete auth)); simpl.
  - split; [done|]. exists c. eexists. split; [done|]. split; [reflexivity|].
    split; [reflexivity|]. intros k. simpl. apply initialSymptoms_lookup.
  - done.
Qed.

Lemma card_and_form_gates_agree_witness :
  Predictions.handlePredictionClick AuthContext.demo_session "thyroid"
  = [NavigateTo ("/predict/" +:+ "thyroid")]
  /\ exists c s',
       diseaseConfigs !! "thyroid" = Some c
       /\ initialize "thyroid" AuthContext.demo_session mounted = Ok (s', [])
       /\ currentStep s' = StepForm
       /\ forall k, symptoms s' !! k
                    = if decide (k ∈ key <$> questions c) then Some 0 else None.
Proof.
  apply (card_and_form_gates_agree AuthContext.demo_session "thyroid").
  unfold Predictions.diseaseCards.
  apply list_elem_of_further, list_elem_of_further, list_elem_of_here.
Defined.

(** *** Risk tiers *)

(** X15. The risk level never goes down when the percentage goes up: for
    p <= q the tier named for p is at most the tier named for q, and the
    low-risk advice (the level ['Low']) is shown exactly below 25. *)
Theorem getRiskLevel_monotone (p q : Z) :
  p <= q ->
  (exists t t', Tier.of_level (level (getRiskLevel p)) = Some t
                /\ Tier.of_level (level (getRiskLevel q)) = Some t'
                /\ (Tier.rank t <= Tier.rank t')%nat)
  /\ (level (getRiskLevel p) = "Low" <-> p < 25).
Proof.
  intros Hpq. unfold getRiskLevel. split.
  - destruct (p <? 25) eqn:Hp1; [|destruct (p <? 50) eqn:Hp2; [|destruct (p <? 75) eqn:Hp3]];
      (destruct (q <? 25) eqn:Hq1; [|destruct (q <? 50) eqn:Hq2; [|destruct (q <? 75) eqn:Hq3]]);
      rewrite ?Z.ltb_lt, ?Z.ltb_ge in *; try lia;
      eexists _, _; (split; [reflexivity|]); (split; [reflexivity|]); simpl; lia.
  - destruct (p <? 25) eqn:Hp1; [|destruct (p <? 50) eqn:Hp2; [|destruct (p <? 75) eqn:Hp3]];
      rewrite ?Z.ltb_lt, ?Z.ltb_ge in *; simpl; split; intros; (done || lia).
Qed.

Lemma getRiskLevel_monotone_witness :
  (exists t t', Tier.of_level (level (getRiskLevel 24)) = Some t
                /\ Tier.of_level (level (getRiskLevel 75)) = Some t'
                /\ (Tier.rank t <= Tier.rank t')%nat)
  /\ (level (getRiskLevel 24) = "Low" <-> 24 < 25).
Proof. apply (getRiskLevel_monotone 24 75). lia. Defined.

End WorkflowFacts.

(** ** The regular expressions of the validators *)

Module TextFacts.
Import Text.

Lemma matches_nonempty (r : regex) (u : jsstring) : matches r u -> (0 < length u)%nat.
Proof.
  induction 1 as [p c Hc|r1 r2 u v _ IHu _ IHv|r u _ IH|r u v _ IHu _ IHv];
    simpl; rewrite ?length_app; lia.
Qed.

Lemma iterate_sound (r : regex) (step : jsstring -> list jsstring) :
  (forall w rest, In rest (step w) -> exists u, w = u ++ rest /\ matches r u) ->
  forall n w rest, In rest (iterate step n w) ->
    exists u, w = u ++ rest /\ matches (Plus r) u.
Proof.
  intros Hstep. induction n as [|n IH]; intros w rest; simpl; [done|].
  rewrite in_app_iff, in_flat_map. intros [Hin|(mid & Hmid & Hin)].
  - destruct (Hstep _ _ Hin) as (u & -> & Hu). exists u. split; [done|].
    by apply matches_plus_once.
  - destruct (Hstep _ _ Hmid) as (u & -> & Hu).
    destruct (IH _ _ Hin) as (v & -> & Hv).
    exists (u ++ v). split; [by rewrite <- app_assoc|]. by apply matches_plus_more.
Qed.

Lemma run_sound (r : regex) :
  forall w rest, In rest (run r w) -> exists u, w = u ++ rest /\ matches r u.
Proof.
  induction r as [p|r1 IH1 r2 IH2|r IH]; intros w rest; simpl.
  - destruct w as [|c w]; [done|]. destruct (p c) eqn:Hc; [|done].
    intros [<-|[]]. exists [c]. split; [done|]. by constructor.
  - rewrite in_flat_map. intros (mid & Hmid & Hin).
    destruct (IH1 _ _ Hmid) as (u & -> & Hu).
    destruct (IH2 _ _ Hin) as (v & -> & Hv).
    exists (u ++ v). split; [by rewrite <- app_assoc|]. by constructor.
  - by apply iterate_sound.
Qed.

Lemma iterate_complete (r : regex) :
  (forall u, matches r u -> forall rest, In rest (run r (u ++ rest))) ->
  forall r' u, matches r' u -> r' = Plus r ->
    forall rest n, (length u <= n)%nat -> In rest (iterate (run r) n (u ++ rest)).
Proof.
  intros Hrun r' u Hm.
  induction Hm as [p c Hc|r1 r2 u v _ _ _ _|r0 u Hu _|r0 u v Hu _ Hv IHv];
    intros Heq rest n Hn; try discriminate; injection Heq as ->.
  - pose proof (matches_nonempty _ _ Hu). destruct n as [|n]; [lia|].
    simpl. apply in_app_iff. left. by apply Hrun.
  - pose proof (matches_nonempty _ _ Hu) as Hlen. rewrite length_app in Hn.
    destruct n as [|n]; [lia|]. simpl. apply in_app_iff. right.
    apply in_flat_map. exists (v ++ rest). split.
    + rewrite <- app_assoc. by apply Hrun.
    + apply IHv; [done | lia].
Qed.

Lemma run_complete (r : regex) :
  forall u, matches r u -> forall rest, In rest (run r (u ++ rest)).
Proof.
  induction r as [p|r1 IH1 r2 IH2|r IH]; intros u Hm rest.
  - inversion Hm as [p' c Hc| | |]; subst. simpl. rewrite Hc. by left.
  - inversion Hm as [|r1' r2' u1 u2 H1 H2| |]; subst. simpl.
    apply in_flat_map. exists (u2 ++ rest). split.
    + rewrite <- app_assoc. by apply IH1.
    + by apply IH2.
  - simpl. eapply (iterate_complete r IH); [exact Hm | done|].
    rewrite length_app. lia.
Qed.

Lemma tails_spec (w suffix : jsstring) :
  In suffix (tails w) <-> exists pre, w = pre ++ suffix.
Proof.
  induction w as [|c w IH]; simpl.
  - split.
    + intros [<-|[]]. by exists [].
    + intros (pre & Hpre). left. symmetry in Hpre.
      by apply app_eq_nil in Hpre as [_ ->].
  - rewrite IH. split.
    + intros [<-|(pre & ->)]; [by exists [] | by exists (c :: pre)].
    + intros ([|c' pre] & Hpre); simpl in Hpre.
      * by left.
      * right. injection Hpre as <- ->. by exists pre.
Qed.

(** [test] holds exactly when some substring matches. *)
Lemma test_spec (r : regex) (w : jsstring) :
  test r w = true <-> exists pre u post, w = pre ++ u ++ post /\ matches r u.
Proof.
  unfold test. rewrite existsb_exists. split.
  - intros (suffix & Hin & Hrun). apply tails_spec in Hin as (pre & ->).
    destruct (run r suffix) as [|rest l] eqn:Hr; [discriminate|].
    destruct (run_sound r suffix rest) as (u & -> & Hu); [rewrite Hr; by left|].
    by exists pre, u, rest.
  - intros (pre & u & post & -> & Hu). exists (u ++ post). split.
    + apply tails_spec. by exists pre.
    + pose proof (run_complete r u Hu post) as Hin.
      by destruct (run r (u ++ post)).
Qed.

(** A single class is found exactly when some code unit is in it. *)
Lemma test_class (p : Z -> bool) (w : jsstring) :
  test (Class p) w = true <-> exists c, c ∈ w /\ p c = true.
Proof.
  rewrite test_spec. split.
  - intros (pre & u & post & -> & Hu). inversion Hu as [p' c Hc| | |]; subst.
    exists c. split; [|done]. apply elem_of_app. right. apply list_elem_of_here.
  - intros (c & Hin & Hc). apply list_elem_of_split in Hin as (pre & post & ->).
    exists pre, [c], post. split; [done|]. by constructor.
Qed.

Lemma plus_class (p : Z -> bool) (u : jsstring) :
  matches (Plus (Class p)) u <-> u <> [] /\ Forall (fun c => p c = true) u.
Proof.
  split.
  - intros Hm. remember (Plus (Class p)) as r eqn:Hr.
    induction Hm as [| |r0 u Hu _|r0 u v Hu _ Hv IHv]; try discriminate;
      injection Hr as ->.
    + inversion Hu as [p' c Hc| | |]; subst. split; [done|]. by repeat constructor.
    + inversion Hu as [p' c Hc| | |]; subst. split; [done|].
      constructor; [done|]. by apply IHv.
  - intros [Hne Hall]. induction Hall as [|c u Hc Hall IH]; [done|].
    destruct u as [|c' u'].
    + apply matches_plus_once. by constructor.
    + apply (matches_plus_more _ [c] (c' :: u')); [by constructor|]. by apply IH.
Qed.

(** X16. The e-mail check of the login and registration forms accepts a
    string exactly when it contains, anywhere, a non-space character, an
    ['@'], one or more non-space characters, a ['.'] and a non-space
    character, in a row; what stands before and after is not looked at. *)
Theorem email_pattern_accepts (w : jsstring) :
  test email_pattern w = true
  <-> exists pre x mid y post,
        w = pre ++ [x; 64] ++ mid ++ [46; y] ++ post
        /\ non_space x = true /\ mid <> [] /\ Forall (fun c => non_space c = true) mid
        /\ non_space y = true.
Proof.
  rewrite test_spec. unfold email_pattern. split.
  - intros (pre & u & post & -> & Hu).
    inversion Hu as [|r1 r2 a u1 Ha H1| |]; subst.
    inversion H1 as [|r1 r2 at_ u2 Hat H2| |]; subst.
    inversion H2 as [|r1 r2 b u3 Hb H3| |]; subst.
    inversion H3 as [|r1 r2 dot d Hdot Hd| |]; subst.
    inversion Hat as [p c Hc| | |]; subst. apply Z.eqb_eq in Hc as ->.
    inversion Hdot as [p c Hc| | |]; subst. apply Z.eqb_eq in Hc as ->.
    apply plus_class in Ha as [Hane Ha], Hb as [Hbne Hb], Hd as [Hdne Hd].
    destruct (exists_last Hane) as (a' & x & ->).
    destruct d as [|y d']; [done|].
    apply Forall_app in Ha as [_ Hx]. apply Forall_cons in Hd as [Hy _].
    exists (pre ++ a'), x, b, y, (d' ++ post). split.
    + by rewrite <- !app_assoc.
    + split; [by apply Forall_cons in Hx as [? _]|]. done.
  - intros (pre & x & mid & y & post & -> & Hx & Hne & Hmid & Hy).
    exists pre, ([x] ++ [64] ++ mid ++ [46] ++ [y]), post. split.
    + by rewrite <- !app_assoc.
    + repeat apply matches_seq.
      * apply plus_class. split; [done|]. by repeat constructor.
      * constructor. apply Z.eqb_refl.
      * by apply plus_class.
      * constructor. apply Z.eqb_refl.
      * apply plus_class. split; [done|]. by repeat constructor.
Qed.

(** A plain address is accepted, and so is one with text around it; without
    a dot after the ['@'] it is not. *)
Example email_pattern_examples :
  test email_pattern (units "user@example.com") = true
  /\ test email_pattern (units "see a@b.c below") = true
  /\ test email_pattern (units "user@example") = false
  /\ test email_pattern (units "@example.com") = false
  /\ test email_pattern [] = false.
Proof. repeat split; by vm_compute. Qed.

End TextFacts.

(** ** Register.jsx *)

Module RegisterFacts.
Import JS Text TextFacts Register.

(** The five criteria of the strength check. *)
Lemma criteria_score (password : jsstring) :
  (criteria password).1
  = (Nat.b2n (8 <=? Z.of_nat (length password))%Z
     + Nat.b2n (test (Class upper) password) + Nat.b2n (test (Class lower) password)
     + Nat.b2n (test (Class digit) password) + Nat.b2n (test (Class special) password))%nat
  /\ ((criteria password).1 + length (criteria password).2 = 5)%nat.
Proof.
  unfold criteria, criterion.
  destruct (8 <=? Z.of_nat (length password))%Z, (test (Class upper) password),
    (test (Class lower) password), (test (Class digit) password),
    (test (Class special) password); by simpl.
Qed.

Lemma score_five (password : jsstring) :
  score (checkPasswordStrength password) = 5%nat <-> all_criteria password.
Proof.
  unfold checkPasswordStrength, all_criteria; simpl.
  destruct (criteria_score password) as [-> _].
  rewrite <- !test_class.
  destruct (8 <=? Z.of_nat (length password))%Z eqn:Hlen;
    [apply Z.leb_le in Hlen | apply Z.leb_gt in Hlen];
    destruct (test (Class upper) password), (test (Class lower) password),
      (test (Class digit) password), (test (Class special) password); simpl;
    split; try (intros; lia); try (intros (? & ? & ? & ? & ?); (discriminate || lia));
    intros _; repeat split; lia.
Qed.

(** X17. [checkPasswordStrength] counts the criteria met and lists a hint for
    each one missed, so score and hints add up to five. The labels are read
    from five-element arrays at the score: they exist for a score up to 4,
    and a password that meets all five criteria (eight characters, an upper
    and a lower case letter, a digit, a special character) gets the score 5
    and neither a strength nor a colour. *)
Theorem checkPasswordStrength_labels (password : jsstring) :
  let st := checkPasswordStrength password in
  (score st + length (feedback st) = 5)%nat
  /\ (score st = 5%nat <-> all_criteria password)
  /\ (is_Some (strength st) <-> (score st < 5)%nat)
  /\ (is_Some (color st) <-> (score st < 5)%nat).
Proof.
  split; [apply criteria_score|]. split; [apply score_five|].
  unfold checkPasswordStrength; simpl. split; apply lookup_lt_is_Some.
Qed.

Lemma bars_with_colour (st : password_strength) (c : string) (indices : list nat) :
  color st = Some c -> exists bs, bars st indices = Ok bs /\ length bs = length indices.
Proof.
  intros Hc. induction indices as [|i rest (bs & Hbs & Hlen)]; simpl.
  - by exists [].
  - unfold bar. rewrite Hc, Hbs.
    destruct (i <? score st)%nat; eexists; (split; [reflexivity|]); simpl; lia.
Qed.

(** X18. The strength indicator of the registration page throws exactly for a
    password that meets all five criteria: its colour is [undefined] and the
    first bar calls [replace] on it. For every other password it renders
    (nothing for the empty one, five bars otherwise). *)
Theorem strengthIndicator_throws_iff (password : jsstring) :
  (exists e, strengthIndicator password = Throw e) <-> all_criteria password.
Proof.
  rewrite <- score_five. unfold strengthIndicator.
  destruct password as [|c0 tl] eqn:Hp.
  { split; [intros [e He]; discriminate | by vm_compute]. }
  rewrite <- Hp. clear Hp.
  assert (Hcol : is_Some (color (checkPasswordStrength password))
                 <-> (score (checkPasswordStrength password) < 5)%nat).
  { unfold checkPasswordStrength; simpl. apply lookup_lt_is_Some. }
  destruct (decide (score (checkPasswordStrength password) = 5%nat)) as [H5|Hn5].
  - split; [intros _; exact H5|]. intros _.
    assert (Hnone : color (checkPasswordStrength password) = None).
    { apply eq_None_not_Some. rewrite Hcol. lia. }
    cbn [bars]. unfold bar. rewrite H5, Hnone. simpl. by eexists.
  - split; [|intros H5; by destruct Hn5]. intros [e He].
    assert (Hsome : is_Some (color (checkPasswordStrength password))).
    { apply Hcol. pose proof (criteria_score password) as [_ Hsum].
      unfold checkPasswordStrength in *. simpl in *. lia. }
    destruct Hsome as [c Hc].
    destruct (bars_with_colour _ c [0; 1; 2; 3; 4]%nat Hc) as (bs & Hbs & _).
    by rewrite Hbs in He.
Qed.

Example strengthIndicator_examples :
  strengthIndicator (units "password123")
  = Ok (Some ["bg-blue-500"; "bg-blue-500"; "bg-blue-500"; "bg-gray-200"; "bg-gray-200"])
  /\ strengthIndicator (units "Passw0rd!")
     = Throw (TypeError "Cannot read properties of undefined (reading 'replace')").
Proof. split; by vm_compute. Qed.

Lemma test_class_app (p : Z -> bool) (u v : jsstring) :
  test (Class p) u = true -> test (Class p) (u ++ v) = true.
Proof.
  rewrite !test_class. intros (c & Hin & Hc). exists c. split; [|done].
  apply elem_of_app. by left.
Qed.

Lemma b2n_mono (a b : bool) : (a = true -> b = true) -> (Nat.b2n a <= Nat.b2n b)%nat.
Proof. destruct a, b; simpl; intros H; try lia; specialize (H eq_refl); discriminate. Qed.

(** X19. Typing more never lowers the score: the score of a password followed
    by further characters is at least the score of the password. *)
Theorem score_grows_with_typing (password more : jsstring) :
  (score (checkPasswordStrength password)
   <= score (checkPasswordStrength (password ++ more)))%nat.
Proof.
  unfold checkPasswordStrength; simpl.
  destruct (criteria_score password) as [-> _].
  destruct (criteria_score (password ++ more)) as [-> _].
  repeat apply Nat.add_le_mono; apply b2n_mono; try apply test_class_app.
  rewrite !Z.leb_le, length_app. lia.
Qed.

Lemma errors_empty (errors : gmap string string) :
  bool_decide (size errors = 0%nat) = true <-> errors = ∅.
Proof. rewrite bool_decide_eq_true. apply map_size_empty_iff. Qed.

Lemma test_nil (r : regex) : test r [] = true -> False.
Proof.
  rewrite test_spec. intros (pre & u & post & Heq & Hu).
  apply matches_nonempty in Hu. symmetry in Heq.
  apply app_eq_nil in Heq as [_ Heq]. apply app_eq_nil in Heq as [-> _].
  simpl in Hu. lia.
Qed.

Lemma register_accepts_iff (formData : form) :
  (validateForm formData).2 = true
  <-> test email_pattern (email formData) = true
      /\ (3 <= score (checkPasswordStrength (password formData)))%nat
      /\ confirmPassword formData = password formData.
Proof.
  unfold validateForm. cbv zeta. cbn [snd]. rewrite errors_empty.
  split.
  - destruct (email formData) as [|e es] eqn:He,
      (password formData) as [|p ps] eqn:Hpw,
      (confirmPassword formData) as [|c cs] eqn:Hc;
      cbv beta iota zeta; intros Hempty;
      repeat case_match; try (by apply insert_non_empty in Hempty).
    repeat match goal with
           | H : negb _ = false |- _ => apply negb_false_iff in H
           end.
    split; [done|]. split.
    + by apply Nat.ltb_ge.
    + symmetry. by eapply bool_decide_eq_true_1.
  - intros (Ht & Hs & Hc).
    destruct (email formData) as [|e es] eqn:He; [by apply test_nil in Ht|].
    destruct (password formData) as [|p ps] eqn:Hpw.
    { exfalso. vm_compute in Hs. lia. }
    rewrite Hc. cbv beta iota zeta.
    apply Nat.ltb_ge in Hs. rewrite Ht, Hs. cbn [negb].
    by rewrite bool_decide_eq_true_2.
Qed.

(** X20. The registration form is accepted exactly when the e-mail passes the
    pattern, the password scores at least 3 and the confirmation equals the
    password; then no error is set. *)
Theorem validateForm_accepts_iff (formData : form) :
  (validateForm formData).2 = true
  <-> test email_pattern (email formData) = true
      /\ (3 <= score (checkPasswordStrength (password formData)))%nat
      /\ confirmPassword formData = password formData.
Proof. apply register_accepts_iff. Qed.

Example validateForm_weak_password :
  validateForm {| email := units "user@example.com"; password := units "password";
                  confirmPassword := units "password" |}
  = ({[ "password" := "Password is too weak. Please include: One uppercase letter, One number, One special character" ]},
     false).
Proof. by vm_compute. Qed.

End RegisterFacts.

(** ** Login.jsx and the dummy login of the API client *)

Module LoginFacts.
Import JS Text TextFacts Login.

Lemma login_accepts_iff (formData : form) :
  (validateForm formData).2 = true
  <-> test email_pattern (email formData) = true
      /\ (6 <= length (password formData))%nat.
Proof.
  unfold validateForm. cbv zeta. cbn [snd]. rewrite RegisterFacts.errors_empty.
  split.
  - destruct (email formData) as [|e es] eqn:He,
      (password formData) as [|p ps] eqn:Hpw;
      cbv beta iota zeta; intros Hempty;
      repeat case_match; try (by apply insert_non_empty in Hempty).
    repeat match goal with
           | H : negb _ = false |- _ => apply negb_false_iff in H
           end.
    split; [done|].
    match goal with H : (_ <? 6)%Z = false |- _ => apply Z.ltb_ge in H end. lia.
  - intros (Ht & Hlen).
    destruct (email formData) as [|e es] eqn:He; [by apply RegisterFacts.test_nil in Ht|].
    destruct (password formData) as [|p ps] eqn:Hpw; [simpl in Hlen; lia|].
    cbv beta iota zeta. rewrite Ht. cbn [negb].
    assert (Hl : (Z.of_nat (length (p :: ps)) <? 6)%Z = false) by (apply Z.ltb_ge; lia).
    by rewrite Hl.
Qed.

(** X21. The login form is accepted exactly when the e-mail passes the
    pattern and the password has at least six characters; then no error is
    set. *)
Theorem validateForm_accepts_iff_login (formData : form) :
  (validateForm formData).2 = true
  <-> test email_pattern (email formData) = true
      /\ (6 <= length (password formData))%nat.
Proof. apply login_accepts_iff. Qed.

(** X22. [handleSubmit] of the login page changes the session in one case
    only: the form is valid and the call resolves with [success]; then the
    session is the one [login] makes of the user and token of the response,
    and the page navigates to [from]. An invalid form makes no call; a
    rejected call shows one error toast; both leave the session as it is. *)
Theorem handleSubmit_outcomes
  (api : form -> settlement) (state : option string) (formData : form)
  (s : AuthContext.session) :
  let r := handleSubmit api state formData s in
  ((validateForm formData).2 = false ->
     r = (s, [ToastError "Please fix the errors below"]))
  /\ (forall u t, (validateForm formData).2 = true -> api formData = Resolved true u t ->
        r.1 = AuthContext.login u t s
        /\ Navigate (from state) true ∈ r.2
        /\ List.filter is_error_toast r.2 = [])
  /\ (forall m, (validateForm formData).2 = true -> api formData = Rejected m ->
        r.1 = s /\ List.filter is_error_toast r.2 = [ToastError (errorMessage m)])
  /\ (r.1 <> s -> exists u t, api formData = Resolved true u t
                               /\ (validateForm formData).2 = true)
  /\ (List.filter is_call r.2 <> [] -> (validateForm formData).2 = true).
Proof.
  unfold handleSubmit. destruct (validateForm formData).2; simpl.
  - split; [discriminate|]. split; [|split; [|split]].
    + intros u t _ ->. simpl. repeat split.
      apply list_elem_of_further, list_elem_of_further, list_elem_of_here.
    + intros m _ ->. by simpl.
    + destruct (api formData) as [[|] u t|m]; simpl; try done. intros _. by exists u, t.
    + done.
  - repeat split; try done.
Qed.

(** X23. Against the dummy API the login page authenticates for the demo
    credentials only: with them the session holds the demo account, whose
    profile is complete, and the page goes to [from]; with any other input
    the session is unchanged and one error toast is shown. *)
Theorem handleSubmit_with_dummy_api
  (state : option string) (formData : form) (s : AuthContext.session) :
  let r := handleSubmit ApiClient.login state formData s in
  if bool_decide (email formData = units "user@example.com")
     && bool_decide (password formData = units "password123")
  then r.1 = AuthContext.login AuthContext.demo_user "dummy-jwt-token-12345" s
       /\ truthy (AuthContext.isProfileComplete r.1) = true
       /\ Navigate (from state) true ∈ r.2
  else r.1 = s /\ length (List.filter is_error_toast r.2) = 1%nat.
Proof.
  cbv zeta. destruct formData as [e p]. cbn [email password].
  destruct (bool_decide (e = units "user@example.com")
            && bool_decide (p = units "password123")) eqn:Hdemo.
  - apply andb_true_iff in Hdemo as [He Hp].
    apply bool_decide_eq_true in He, Hp. subst e p. unfold handleSubmit.
    assert (Hv : (validateForm {| email := units "user@example.com";
                                  password := units "password123" |}).2 = true)
      by (by vm_compute).
    rewrite Hv. simpl. repeat split.
    apply list_elem_of_further, list_elem_of_further, list_elem_of_here.
  - unfold handleSubmit. destruct (validateForm _).2; simpl; [|done].
    unfold ApiClient.login. cbn [email password]. by rewrite Hdemo.
Qed.

End LoginFacts.

(** ** The forms against each other *)

Module FormsFacts.
Import JS Text TextFacts.

(** X24. With the dummy API every valid registration succeeds: one call with
    the e-mail and password of the form, the success toast, the navigation to
    ["/login"] and no error toast; an invalid form makes no call and shows one
    error toast. *)
Theorem register_handleSubmit_with_dummy_api (formData : Register.form) :
  let fx := Register.handleSubmit Register.dummy_api formData in
  if (Register.validateForm formData).2 then
    fx = [Register.CallRegister (Register.email formData) (Register.password formData);
          Register.ToastSuccess "Registration successful! Please log in.";
          Register.Navigate "/login"]
  else
    List.filter Register.is_call fx = []
    /\ fx = [Register.ToastError "Please fix the errors below"].
Proof.
  cbv zeta. unfold Register.handleSubmit.
  destruct (Register.validateForm formData).2 eqn:Hv; simpl; [|done].
  apply RegisterFacts.register_accepts_iff in Hv as (Ht & Hs & Hc).
  unfold Register.dummy_api, ApiClient.register.
  destruct (Register.email formData) as [|e es] eqn:He;
    [by apply RegisterFacts.test_nil in Ht|].
  destruct (Register.password formData) as [|p ps] eqn:Hp; [|done].
  exfalso. vm_compute in Hs. lia.
Qed.

(** X25. The two forms disagree on short passwords: a password that scores
    at least 3 but has fewer than six characters passes the registration
    form, and the login form then rejects it as too short. *)
Theorem registration_accepts_what_login_rejects (e p : jsstring) :
  test email_pattern e = true ->
  (3 <= Register.score (Register.checkPasswordStrength p))%nat ->
  (length p < 6)%nat ->
  (Register.validateForm
     {| Register.email := e; Register.password := p; Register.confirmPassword := p |}).2
  = true
  /\ (Login.validateForm {| Login.email := e; Login.password := p |}).2 = false
  /\ (Login.validateForm {| Login.email := e; Login.password := p |}).1 !! "password"
     = Some "Password must be at least 6 characters".
Proof.
  intros Ht Hs Hlen. split.
  { apply RegisterFacts.register_accepts_iff.
    cbn [Register.email Register.password Register.confirmPassword]. auto. }
  assert (Hrej : (Login.validateForm {| Login.email := e; Login.password := p |}).2
                 = false).
  { apply not_true_is_false. intros Hv.
    apply LoginFacts.login_accepts_iff in Hv as [_ Hv]. simpl in Hv. lia. }
  split; [exact Hrej|].
  unfold Login.validateForm. cbv zeta. cbn [fst Login.email Login.password].
  destruct p as [|c cs]; [exfalso; vm_compute in Hs; lia|].
  assert (Hl : (Z.of_nat (length (c :: cs)) <? 6)%Z = true) by (apply Z.ltb_lt; lia).
  rewrite Hl. apply lookup_insert_eq.
Qed.

Lemma registration_accepts_what_login_rejects_witness :
  (Register.validateForm
     {| Register.email := units "a@b.c"; Register.password := units "Aa1";
        Register.confirmPassword := units "Aa1" |}).2
  = true
  /\ (Login.validateForm {| Login.email := units "a@b.c";
                            Login.password := units "Aa1" |}).2 = false
  /\ (Login.validateForm {| Login.email := units "a@b.c";
                            Login.password := units "Aa1" |}).1 !! "password"
     = Some "Password must be at least 6 characters".
Proof.
  apply (registration_accepts_what_login_rejects (units "a@b.c") (units "Aa1")).
  - by vm_compute.
  - vm_compute. lia.
  - vm_compute. lia.
Defined.

(** X26. One slider is enough: on answers that are not negative, setting any
    answer to a positive value makes the validation pass, and so a call is
    made on submission. *)
Theorem one_answer_enables_submit
  (t : string) (auth : AuthContext.session) (s : PredictionForm.cells)
  (k : string) (v : Z) :
  map_Forall (fun _ x => 0 <= x) (PredictionForm.symptoms s) ->
  0 < v ->
  (PredictionForm.validateForm (PredictionForm.handleSymptomChange k v s)).1 = true
  /\ PredictionForm.requests
       (PredictionForm.handleSubmit_start t auth
          (PredictionForm.handleSymptomChange k v s)).2
     = [PredictionForm.GetPrediction t (<[k := v]> (PredictionForm.symptoms s))
          (AuthContext.token auth)].
Proof.
  intros Hnn Hv.
  assert (Hnn' : map_Forall (fun _ x => 0 <= x)
                   (PredictionForm.symptoms (PredictionForm.handleSymptomChange k v s))).
  { simpl. apply map_Forall_insert_2; [lia | exact Hnn]. }
  assert (Hvalid : (PredictionForm.validateForm
                      (PredictionForm.handleSymptomChange k v s)).1 = true).
  { apply (WorkflowFacts.validateForm_iff_nonzero _ Hnn'). exists k, v. split; [|lia].
    simpl. apply lookup_insert_eq. }
  split; [exact Hvalid|].
  unfold PredictionForm.handleSubmit_start.
  destruct (PredictionForm.validateForm _) as [valid fx] eqn:Hval.
  simpl in Hvalid. subst valid. unfold PredictionForm.validateForm in Hval.
  destruct (PredictionForm.totalScore _ =? 0); [discriminate|].
  injection Hval as <-. reflexivity.
Qed.

Lemma one_answer_enables_submit_witness :
  (PredictionForm.validateForm
     (PredictionForm.handleSymptomChange "fatigue" 40 Demo.seeded)).1 = true
  /\ PredictionForm.requests
       (PredictionForm.handleSubmit_start "diabetes" AuthContext.demo_session
          (PredictionForm.handleSymptomChange "fatigue" 40 Demo.seeded)).2
     = [PredictionForm.GetPrediction "diabetes"
          (<["fatigue" := 40]> (PredictionForm.symptoms Demo.seeded))
          (AuthContext.token AuthContext.demo_session)].
Proof.
  apply (one_answer_enables_submit "diabetes" AuthContext.demo_session Demo.seeded
           "fatigue" 40).
  - intros k v Hk. apply PredictionFormFacts.seeded_all_zero in Hk. simpl in Hk. lia.
  - lia.
Defined.

End FormsFacts.
